(** * osm-util, [read.py]: the OSM-PBF layer parsing pipeline

    A shallow embedding of [parse_osm_pbf], [parse_layer_data] (with its
    local functions [parse_other_tags], [format_single_geometry] and
    [format_multi_geometries]) and [read_osm_pbf], followed by the
    properties of these functions.

    Conventions of the embedding:
    - a Python [str] is a [string]; the double quote is the character
      [dq] (code 34) and the line feed is [nl] (code 10);
    - a raised exception is the [Err] branch of [result];
    - a Python [dict] is an association list in insertion order whose
      keys are pairwise distinct ([dict_set] overwrites in place);
    - a pandas column is the list of its cells, a missing cell (NaN) is
      [None];
    - shapely's constructors are external: a geometry value is the
      constructor that was called together with the argument it was
      called on ([PGeom]).  The functions named as in the source return
      these records, so that their results tell which calls are made;
      the functions with the suffix [_run] take the constructors as a
      parameter that may raise, for the statements that depend on
      whether a call returns. *)

From Stdlib Require Import String Ascii List Bool Arith ZArith Lia.
Import ListNotations.
Open Scope string_scope.
Set Warnings "-register-all".

(** ** Exceptions and results *)

Inductive exn : Type :=
| ValueError
| TypeError
| AttributeError
| IndexError
| KeyError (key : string)
| OtherError (msg : string).

Inductive result (A : Type) : Type :=
| Ok (a : A)
| Err (e : exn).
Arguments Ok {A} a.
Arguments Err {A} e.

Definition bind {A B : Type} (r : result A) (k : A -> result B) : result B :=
  match r with
  | Ok a => k a
  | Err e => Err e
  end.

Notation "x <- r ;; k" := (bind r (fun x => k))
  (at level 61, r at next level, right associativity).

(** Evaluates [f] on the elements from left to right and stops at the
    first exception: a comprehension, or [Series.map]. *)
Fixpoint map_result {A B : Type} (f : A -> result B) (l : list A) : result (list B) :=
  match l with
  | [] => Ok []
  | a :: l' => b <- f a ;; bs <- map_result f l' ;; Ok (b :: bs)
  end.

Definition is_ok {A : Type} (r : result A) : bool :=
  match r with Ok _ => true | Err _ => false end.

(** ** Python strings *)

Definition dq : ascii := "034"%char.
Definition nl : ascii := "010"%char.

(** A separator occurrence starts here: [s.startswith(p)]. *)
Fixpoint startswith (p s : string) : bool :=
  match p with
  | EmptyString => true
  | String a p' =>
      match s with
      | EmptyString => false
      | String b s' => Ascii.eqb a b && startswith p' s'
      end
  end.

(** [prepend c l] puts [c] in front of the first string of [l]. *)
Definition prepend (c : ascii) (l : list string) : list string :=
  match l with
  | [] => [String c EmptyString]
  | seg :: rest => String c seg :: rest
  end.

(** [str.split(sep)] for a non-empty [sep]: occurrences are taken from
    left to right and do not overlap.  [skip] counts the characters of
    the occurrence being consumed. *)
Fixpoint split_from (sep : string) (skip : nat) (s : string) : list string :=
  match s with
  | EmptyString => [EmptyString]
  | String c s' =>
      match skip with
      | S n => split_from sep n s'
      | O =>
          if startswith sep s
          then EmptyString :: split_from sep (String.length sep - 1) s'
          else prepend c (split_from sep 0 s')
      end
  end.

Definition str_split (sep s : string) : list string := split_from sep 0 s.

(** [prepend_string u l] puts the string [u] in front of the first
    string of [l]; it is used to state how a scan goes through [u]. *)
Definition prepend_string (u : string) (l : list string) : list string :=
  match l with
  | [] => [u]
  | seg :: rest => (u ++ seg) :: rest
  end.

(** [str.replace(old, new)] for a non-empty [old]. *)
Fixpoint replace_from (old new : string) (skip : nat) (s : string) : string :=
  match s with
  | EmptyString => EmptyString
  | String c s' =>
      match skip with
      | S n => replace_from old new n s'
      | O =>
          if startswith old s
          then new ++ replace_from old new (String.length old - 1) s'
          else String c (replace_from old new 0 s')
      end
  end.

Definition str_replace (old new s : string) : string := replace_from old new 0 s.

(** [sub in s]. *)
Fixpoint str_contains (sub s : string) : bool :=
  startswith sub s ||
  match s with
  | EmptyString => false
  | String _ s' => str_contains sub s'
  end.

Fixpoint mem_ascii (c : ascii) (chars : string) : bool :=
  match chars with
  | EmptyString => false
  | String a chars' => Ascii.eqb a c || mem_ascii c chars'
  end.

(** [s.lstrip(chars)]: drops the leading characters that belong to [chars]. *)
Fixpoint lstrip (chars s : string) : string :=
  match s with
  | EmptyString => EmptyString
  | String c s' => if mem_ascii c chars then lstrip chars s' else s
  end.

(** ** The two regular expressions of [parse_other_tags] *)

Definition starts_with_dq (s : string) : bool :=
  match s with
  | String c _ => Ascii.eqb c dq
  | EmptyString => false
  end.

(** [re.split] on the pattern of [parse_other_tags]: a comma with a
    lookbehind and a lookahead for one double quote each.  A comma is a
    cut exactly when the character before it and the character after it
    are double quotes.
    [prev] tells whether the character before the current position is a
    double quote. *)
Fixpoint re_split_from (prev : bool) (s : string) : list string :=
  match s with
  | EmptyString => [EmptyString]
  | String c s' =>
      if prev && Ascii.eqb c "," && starts_with_dq s'
      then EmptyString :: re_split_from false s'
      else prepend c (re_split_from (Ascii.eqb c dq) s')
  end.

Definition re_split_tags (x : string) : list string := re_split_from false x.

(** The second alternative of the pattern of [re.sub] (double quote,
    then dollar): the position after the double quote is the end of the
    string, or the line feed that ends the string. *)
Definition at_end (s : string) : bool :=
  match s with
  | EmptyString => true
  | String c EmptyString => Ascii.eqb c nl
  | _ => false
  end.

Fixpoint strip_tail (t : string) : string :=
  match t with
  | EmptyString => EmptyString
  | String c t' =>
      if Ascii.eqb c dq && at_end t' then t' else String c (strip_tail t')
  end.

(** [re.sub] with the pattern (caret, double quote) or (double quote,
    dollar) and the empty replacement, on [each_tag]. *)
Definition re_sub_quotes (each_tag : string) : string :=
  match each_tag with
  | EmptyString => EmptyString
  | String c t' =>
      if Ascii.eqb c dq then strip_tail t' else String c (strip_tail t')
  end.

(** ** Python dictionaries with string keys *)

Section Dict.
Context {V : Type}.

Definition dict : Type := list (string * V).

Fixpoint dict_set (k : string) (v : V) (d : dict) : dict :=
  match d with
  | [] => [(k, v)]
  | (k', v') :: d' =>
      if String.eqb k' k then (k', v) :: d' else (k', v') :: dict_set k v d'
  end.

Fixpoint dict_get (d : dict) (k : string) : option V :=
  match d with
  | [] => None
  | (k', v') :: d' => if String.eqb k' k then Some v' else dict_get d' k
  end.

Definition dict_keys (d : dict) : list string := map fst d.

(** [d[k] = v] for the pair [kv] of [k] and [v]. *)
Definition enter (d : dict) (kv : string * V) : dict :=
  dict_set (fst kv) (snd kv) d.

(** [dict(pairs)] and the dictionary comprehension: the pairs are
    entered from left to right. *)
Definition dict_of (pairs : list (string * V)) : dict :=
  fold_left enter pairs [].
End Dict.
Arguments dict V : clear implicits.

(** ** [parse_other_tags] *)

Definition tag_sep : string := String dq ("=>" ++ String dq EmptyString).

(** The target [k, v] of the comprehension: a list of two items. *)
Definition unpack_pair (parts : list string) : result (string * string) :=
  match parts with
  | [k; v] => Ok (k, v)
  | _ => Err ValueError
  end.

Definition raw_other_tags (x : string) : list string :=
  map re_sub_quotes (re_split_tags x).

(** The generator of [each_tag.split(tag_sep)] over [raw_other_tags],
    as the dictionary comprehension consumes it. *)
Definition tag_pairs (x : string) : result (list (string * string)) :=
  map_result (fun each_tag => unpack_pair (str_split tag_sep each_tag))
             (raw_other_tags x).

Definition br_to_space (v : string) : string := str_replace "<br>" " " v.

Definition parse_other_tags (x : option string) : result (option (dict string)) :=
  match x with
  | Some s =>
      kvs <- tag_pairs s ;;
      Ok (Some (dict_of (map (fun kv => (fst kv, br_to_space (snd kv))) kvs)))
  | None => Ok None
  end.

(** The tag-string grammar in the words of the specification (section
    4.1): each pair is written quote, key, quote, [=>], quote, value,
    quote, and the pairs are joined by commas.  The source has no
    encoder; this one is the reference the decoder is compared with. *)
Definition encode_pair (kv : string * string) : string :=
  String dq (fst kv ++ tag_sep ++ snd kv ++ String dq EmptyString).

Definition encode_tags (pairs : list (string * string)) : string :=
  String.concat "," (map encode_pair pairs).

Fixpoint dq_free (s : string) : bool :=
  match s with
  | EmptyString => true
  | String c s' => negb (Ascii.eqb c dq) && dq_free s'
  end.

(** A key or a value of a well-formed blob: no double quote inside, and
    not the one-character string made of a comma. *)
Definition plain (s : string) : bool := dq_free s && negb (String.eqb s ",").

Definition plain_pair (kv : string * string) : bool := plain (fst kv) && plain (snd kv).

(** The value of the last pair of [pairs] whose key is [k]. *)
Fixpoint last_value (k : string) (pairs : list (string * string)) : option string :=
  match pairs with
  | [] => None
  | (k', v) :: rest =>
      match last_value k rest with
      | Some v' => Some v'
      | None => if String.eqb k' k then Some v else None
      end
  end.

(** ** Coordinates and geometry values *)

(** A coordinate payload as [json.loads] delivers it: numbers and nested
    arrays.  The numbers are coordinates; nothing below computes with them. *)
Inductive json : Type :=
| JNum (x : Z)
| JArr (items : list json).

Inductive gtype : Type :=
| Point
| LineString
| MultiLineString
| Polygon
| MultiPolygon
| GeometryCollection.

(** What the formatters handle: a payload, a missing cell, a list, a
    generator (by the items it yields), and a geometry built by shapely
    (the constructor and the argument of the call). *)
Inductive pyval : Type :=
| PJson (j : json)
| PNaN
| PList (items : list pyval)
| PGen (items : list pyval)
| PGeom (t : gtype) (arg : pyval).

(** [for y in x] over a payload: a number is not iterable. *)
Definition iter (x : json) : result (list json) :=
  match x with
  | JArr items => Ok items
  | JNum _ => Err TypeError
  end.

(** [d[k]]. *)
Definition getitem {V : Type} (d : dict V) (k : string) : result V :=
  match dict_get d k with
  | Some v => Ok v
  | None => Err (KeyError k)
  end.

(** Modelled from the spec: [osm_geom_types] of [utils.py], which is not
    among the sources.  Section 4.2: a fixed mapping from geometry-type
    name to geometry constructor covering exactly Point, LineString,
    MultiLineString, Polygon, MultiPolygon and GeometryCollection. *)
Definition osm_geom_types : dict gtype :=
  [("Point", Point); ("LineString", LineString);
   ("MultiLineString", MultiLineString); ("Polygon", Polygon);
   ("MultiPolygon", MultiPolygon); ("GeometryCollection", GeometryCollection)].

(** One entry of the [geometries] list of a relation; every entry is
    taken to have both keys, [type] and [coordinates]. *)
Record descriptor : Type := {
  d_type : string;
  d_coordinates : json
}.

(** The [geometry] member of a feature: [type] and, depending on the
    layer, [coordinates] or [geometries]. *)
Record geometry : Type := {
  g_type : string;
  g_coordinates : option json;
  g_geometries : option (list descriptor)
}.

(** A feature as exported by the reader: the [other_tags] property (the
    other properties are carried along unchanged and are left out) and
    the geometry. *)
Record feature : Type := {
  f_other_tags : option string;
  f_geometry : geometry
}.

(** A row of the table returned by [parse_layer_data]. *)
Record row : Type := {
  other_tags : option (dict string);
  geom_type : string;
  coordinates : pyval;
  geometries : option (list descriptor)
}.

Definition is_some {A : Type} (o : option A) : bool :=
  match o with Some _ => true | None => false end.

(** A column of a [DataFrame] built from a list of records: it exists
    when some record has the key, and the cell of a record without the
    key is missing. *)
Definition column {A B : Type} (f : A -> option B) (records : list A)
  : option (list (option B)) :=
  if existsb (fun r => is_some (f r)) records then Some (map f records) else None.

(** ** The two formatters and [parse_layer_data] *)

(** The generator [(pt for pts in coords for pt in pts)]. *)
Definition flatten_once (coords : json) : result (list json) :=
  ptss <- iter coords ;;
  ptsl <- map_result iter ptss ;;
  Ok (concat ptsl).

(** The body of the comprehension of [format_multi_geometries] for one
    pair [(geom_type, coords)].  The result is the record of the
    constructor call that is made; [format_descriptor_run] has the call
    itself, which may raise. *)
Definition format_descriptor (geom_type : string) (coords : json) : result pyval :=
  if negb (str_contains "Polygon" geom_type)
  then
    f <- getitem osm_geom_types geom_type ;;
    Ok (PGeom f (PJson coords))
  else
    f <- getitem osm_geom_types geom_type ;;
    pts <- flatten_once coords ;;
    Ok (PGeom f (PGen (map PJson pts))).

(** The argument is a cell of the [geometries] column; iterating a
    missing cell raises. *)
Definition format_multi_geometries (cell : option (list descriptor)) : result pyval :=
  match cell with
  | None => Err TypeError
  | Some geoms =>
      let geom_types := map d_type geoms in
      let coordinates := map d_coordinates geoms in
      geom_collection <-
        map_result (fun tc => format_descriptor (fst tc) (snd tc))
                   (combine geom_types coordinates) ;;
      Ok (PGeom GeometryCollection (PList geom_collection))
  end.

(** The lambda of the MultiPolygon branch of [format_single_geometry]:
    [geom_type_func(sub_geom_type_func(l) for ls in x for l in ls)], as
    the record of the calls that are made; [format_multipolygon_run] has
    the calls themselves. *)
Definition format_multipolygon (geom_type_func sub_geom_type_func : gtype)
  (x : option json) : result pyval :=
  match x with
  | None => Err TypeError
  | Some coords =>
      ls <- flatten_once coords ;;
      Ok (PGeom geom_type_func
                (PGen (map (fun l => PGeom sub_geom_type_func (PJson l)) ls)))
  end.

Definition cell_value (x : option json) : pyval :=
  match x with
  | Some coords => PJson coords
  | None => PNaN
  end.

Section Layer.
(** [list(set(xs))]: the order in which a set of strings is iterated
    is not fixed by the language. *)
Variable set_list : list string -> list string.

(** [geom_data] is the two-column frame [data[['geom_type', 'coordinates']]],
    row by row.  The cells of the result are the records of the
    constructor calls; [format_single_geometry_run] has the calls
    themselves. *)
Definition format_single_geometry (geom_data : list (string * option json))
  : result (list pyval) :=
  let geom_types_funcs := osm_geom_types in
  geom_type <-
    match set_list (map fst geom_data) with
    | t :: _ => Ok t
    | [] => Err IndexError
    end ;;
  geom_type_func <- getitem geom_types_funcs geom_type ;;
  if String.eqb geom_type "MultiPolygon"
  then
    sub_geom_type_func <- getitem geom_types_funcs (lstrip "Multi" geom_type) ;;
    map_result (format_multipolygon geom_type_func sub_geom_type_func)
               (map snd geom_data)
  else
    Ok (map (fun x => PGeom geom_type_func (cell_value x)) (map snd geom_data)).

Definition make_row (f : feature) (tags : option (dict string)) (c : pyval) : row :=
  {| other_tags := tags;
     geom_type := g_type (f_geometry f);
     coordinates := c;
     geometries := g_geometries (f_geometry f) |}.

Fixpoint make_rows (dat : list feature) (tags : list (option (dict string)))
  (cs : list pyval) : list row :=
  match dat, tags, cs with
  | f :: dat', t :: tags', c :: cs' => make_row f t c :: make_rows dat' tags' cs'
  | _, _, _ => []
  end.

(** [dat] is the frame of one layer, one feature per row; a frame
    without rows has no columns, so that reading [dat.properties]
    raises. *)
Definition parse_layer_data (dat : list feature) (geo_typ : string)
  : result (list row) :=
  match dat with
  | [] => Err AttributeError
  | _ :: _ =>
      let dat_geometries := map f_geometry dat in
      tags <- map_result parse_other_tags (map f_other_tags dat) ;;
      cs <-
        (if String.eqb geo_typ "other_relations"
         then
           match column g_geometries dat_geometries with
           | None => Err AttributeError
           | Some cells => map_result format_multi_geometries cells
           end
         else
           match column g_coordinates dat_geometries with
           | None => Err (KeyError "coordinates")
           | Some cells =>
               format_single_geometry (combine (map g_type dat_geometries) cells)
           end) ;;
      Ok (make_rows dat tags cs)
  end.
End Layer.

(** ** The reader and the two entry points *)

(** A layer of the opened file: its name and, feature by feature, what
    exporting the feature and loading the JSON text gives. *)
Record layer : Type := {
  l_name : string;
  l_features : list (result feature)
}.

(** What [parse_osm_pbf] meets outside the program for one subregion:
    whether the file is there, the answer to the download prompt, what
    the download does (it raises, or tells whether the file is there
    afterwards), and the layers [ogr.Open] finds in the file ([None]
    when it cannot open it: [ogr.Open] then returns [None]). *)
Record world : Type := {
  w_isfile : bool;
  w_confirmed : bool;
  w_download : result bool;
  w_layers : option (list layer)
}.

(** The text after [failed as] in the line that [parse_osm_pbf] prints. *)
Inductive err_msg : Type :=
| NoSuchFile
| Raised (e : exn).

(** The statements before [try]: the result tells whether the file is
    there when parsing starts. *)
Definition acquire (w : world) : result bool :=
  if negb (w_isfile w)
  then if w_confirmed w then w_download w else Ok false
  else Ok true.

Definition ogr_Open (w : world) (isfile : bool) : option (list layer) :=
  if isfile then w_layers w else None.

(** The [while] loop over the features of one layer. *)
Definition read_features (lyr : layer) : result (list feature) :=
  map_result (fun feat_dat => feat_dat) (l_features lyr).

(** The body of [try]. *)
Definition read_layers (w : world) (isfile : bool)
  : result (dict (list feature)) :=
  match ogr_Open w isfile with
  | None => Err AttributeError
  | Some osm =>
      layer_data <- map_result read_features osm ;;
      let layer_names := map l_name osm in
      Ok (dict_of (combine layer_names layer_data))
  end.

(** The returned pair is the value of [data] and the lines printed. *)
Definition parse_osm_pbf (w : world)
  : result (option (dict (list feature)) * list err_msg) :=
  isfile <- acquire w ;;
  match read_layers w isfile with
  | Ok data => Ok (Some data, [])
  | Err e =>
      let msg := if isfile then Raised e else NoSuchFile in
      Ok (None, [msg])
  end.

Section Read.
Variable set_list : list string -> list string.

Definition read_osm_pbf (w : world) : result (option (dict (list row))) :=
  parsed <- parse_osm_pbf w ;;
  match fst parsed with
  | None => Err AttributeError
  | Some osm_data =>
      layer_data <-
        map_result (fun item => parse_layer_data set_list (snd item) (fst item))
                   osm_data ;;
      Ok (Some (dict_of (combine (dict_keys osm_data) layer_data)))
  end.
End Read.

(** Two iteration orders of a set: first occurrences in the order of the
    list, and the reverse. *)
Fixpoint distinct (l : list string) : list string :=
  match l with
  | [] => []
  | x :: l' => x :: filter (fun y => negb (String.eqb x y)) (distinct l')
  end.

Definition distinct_rev (l : list string) : list string := rev (distinct l).

(** ** Predicates used in the statements *)

(** Some segment of the blob does not split on the separator into
    exactly two parts. *)
Definition malformed (x : string) : bool :=
  existsb (fun each_tag => negb (Nat.eqb (List.length (str_split tag_sep each_tag)) 2))
          (raw_other_tags x).

(** The fixed vocabulary of geometry-type names. *)
Definition vocabulary : list string :=
  ["Point"; "LineString"; "MultiLineString"; "Polygon"; "MultiPolygon";
   "GeometryCollection"].

(** What is known of [list(set(xs))]: it holds the elements of [xs]. *)
Definition lists_the_set (set_list : list string -> list string) : Prop :=
  forall (xs : list string) (x : string), In x (set_list xs) <-> In x xs.

(** The geometries held by a geometry collection. *)
Definition members (v : pyval) : list pyval :=
  match v with
  | PGeom GeometryCollection (PList items) => items
  | _ => []
  end.

Definition is_polygon (v : pyval) : bool :=
  match v with
  | PGeom Polygon _ => true
  | _ => false
  end.

(** The reader cannot deliver every feature of every layer. *)
Definition unreadable (osm : list layer) : bool :=
  existsb (fun lyr => existsb (fun feat_dat => negb (is_ok feat_dat)) (l_features lyr)) osm.

(** The file cannot be opened or parsed: it is not there, [ogr.Open]
    does not open it, or reading some feature raises. *)
Definition cannot_open_or_parse (w : world) (isfile : bool) : bool :=
  negb isfile ||
  match w_layers w with
  | None => true
  | Some osm => unreadable osm
  end.

(** ** Sample data *)

Definition pt (x y : Z) : json := JArr [JNum x; JNum y].

Definition ring_1 : list json := [pt 0 0; pt 1 0; pt 1 1; pt 0 0].
Definition ring_2 : list json := [pt 2 2; pt 3 2; pt 3 3; pt 2 2].

Definition simple_geometry (t : string) (coords : json) : geometry :=
  {| g_type := t; g_coordinates := Some coords; g_geometries := None |}.

(** Two features of one batch with different geometry types whose
    payloads have the same shape, a list of point lists. *)
Definition mixed_batch : list feature :=
  [ {| f_other_tags := None;
       f_geometry := simple_geometry "MultiLineString" (JArr [JArr ring_1]) |};
    {| f_other_tags := None;
       f_geometry := simple_geometry "Polygon" (JArr [JArr ring_2]) |} ].

Definition bus_stop (x y : Z) : feature :=
  {| f_other_tags := Some (encode_tags [("highway", "bus_stop")]);
     f_geometry := simple_geometry "Point" (pt x y) |}.

(** A feature whose tag blob has no separator at all. *)
Definition broken_tags (x y : Z) : feature :=
  {| f_other_tags := Some "highway";
     f_geometry := simple_geometry "Point" (pt x y) |}.

Definition polygon_of_two : descriptor :=
  {| d_type := "Polygon"; d_coordinates := JArr [JArr ring_1; JArr ring_2] |}.

(** The file is missing and the download is declined. *)
Definition world_without_file : world :=
  {| w_isfile := false; w_confirmed := false; w_download := Ok false;
     w_layers := None |}.

(** The file is there and the second feature of its layer cannot be read. *)
Definition world_with_bad_feature : world :=
  {| w_isfile := true; w_confirmed := false; w_download := Ok true;
     w_layers := Some [ {| l_name := "points";
                           l_features := [Ok (bus_stop 0 0); Err (OtherError "json")] |} ] |}.

(** ** Further predicates and sample data *)

Definition is_array (x : json) : bool :=
  match x with
  | JArr _ => true
  | JNum _ => false
  end.

(** The payload is an array whose items are arrays. *)
Definition two_levels (coords : json) : bool :=
  match coords with
  | JArr items => forallb is_array items
  | JNum _ => false
  end.

(** [k in l] for a list of strings. *)
Definition mem_string (k : string) (l : list string) : bool :=
  existsb (String.eqb k) l.

Fixpoint dash_free (s : string) : bool :=
  match s with
  | EmptyString => true
  | String c s' => negb (Ascii.eqb c "-") && dash_free s'
  end.

Definition option_dash_free (o : option string) : bool :=
  match o with
  | Some s => dash_free s
  | None => true
  end.

(** A cell that cannot be iterated: it is missing, or it is a number. *)
Definition cell_not_iterable (x : option json) : bool :=
  match x with
  | Some (JArr _) => false
  | Some (JNum _) => true
  | None => true
  end.

(** ** The formatters with constructors that may raise *)

(** In the definitions above a constructor call returns the record
    [PGeom] of the call, so that their results tell which calls are made
    and on what.  Below the same functions are given with the
    constructors as they are for the program: calls into shapely that
    return a geometry or raise.  The statements in the source are
    evaluated in the same order; a constructor that is given a generator
    reads it to its end first, and an exception of the generator leaves
    the constructor. *)

(** The constructor that returns the record of its call. *)
Definition called (t : gtype) (arg : pyval) : result pyval := Ok (PGeom t arg).

Section Shapely.
(** [construct t arg]: the call of the shapely constructor for [t] on [arg]. *)
Variable construct : gtype -> pyval -> result pyval.

Definition format_descriptor_run (geom_type : string) (coords : json) : result pyval :=
  if negb (str_contains "Polygon" geom_type)
  then
    f <- getitem osm_geom_types geom_type ;;
    construct f (PJson coords)
  else
    f <- getitem osm_geom_types geom_type ;;
    pts <- flatten_once coords ;;
    construct f (PGen (map PJson pts)).

Definition format_multi_geometries_run (cell : option (list descriptor)) : result pyval :=
  match cell with
  | None => Err TypeError
  | Some geoms =>
      let geom_types := map d_type geoms in
      let coordinates := map d_coordinates geoms in
      geom_collection <-
        map_result (fun tc => format_descriptor_run (fst tc) (snd tc))
                   (combine geom_types coordinates) ;;
      construct GeometryCollection (PList geom_collection)
  end.

(** The items that the generator of the MultiPolygon branch yields while
    it goes through one [ls]: [sub_geom_type_func(l) for l in ls]. *)
Definition polygons_of (sub_geom_type_func : gtype) (ls : json) : result (list pyval) :=
  items <- iter ls ;;
  map_result (fun l => construct sub_geom_type_func (PJson l)) items.

Definition format_multipolygon_run (geom_type_func sub_geom_type_func : gtype)
  (x : option json) : result pyval :=
  match x with
  | None => Err TypeError
  | Some coords =>
      lss <- iter coords ;;
      polys <- map_result (polygons_of sub_geom_type_func) lss ;;
      construct geom_type_func (PGen (concat polys))
  end.

Variable set_list : list string -> list string.

Definition format_single_geometry_run (geom_data : list (string * option json))
  : result (list pyval) :=
  let geom_types_funcs := osm_geom_types in
  geom_type <-
    match set_list (map fst geom_data) with
    | t :: _ => Ok t
    | [] => Err IndexError
    end ;;
  geom_type_func <- getitem geom_types_funcs geom_type ;;
  if String.eqb geom_type "MultiPolygon"
  then
    sub_geom_type_func <- getitem geom_types_funcs (lstrip "Multi" geom_type) ;;
    map_result (format_multipolygon_run geom_type_func sub_geom_type_func)
               (map snd geom_data)
  else
    map_result (fun x => construct geom_type_func (cell_value x)) (map snd geom_data).

Definition parse_layer_data_run (dat : list feature) (geo_typ : string)
  : result (list row) :=
  match dat with
  | [] => Err AttributeError
  | _ :: _ =>
      let dat_geometries := map f_geometry dat in
      tags <- map_result parse_other_tags (map f_other_tags dat) ;;
      cs <-
        (if String.eqb geo_typ "other_relations"
         then
           match column g_geometries dat_geometries with
           | None => Err AttributeError
           | Some cells => map_result format_multi_geometries_run cells
           end
         else
           match column g_coordinates dat_geometries with
           | None => Err (KeyError "coordinates")
           | Some cells =>
               format_single_geometry_run (combine (map g_type dat_geometries) cells)
           end) ;;
      Ok (make_rows dat tags cs)
  end.
End Shapely.

(** A constructor for the samples: it raises for a number and for a
    missing cell and returns the record of the call otherwise. *)
Definition rejects_scalars (t : gtype) (arg : pyval) : result pyval :=
  match arg with
  | PJson (JNum _) => Err TypeError
  | PNaN => Err TypeError
  | _ => Ok (PGeom t arg)
  end.

(** ** [make_osm_pickle_file_path] of [read_shp_zip] *)

(** The items of a list that are not [None]. *)
Fixpoint not_none (l : list (option string)) : list string :=
  match l with
  | [] => []
  | Some s :: l' => s :: not_none l'
  | None :: l' => not_none l'
  end.

Section PicklePath.
(** [os.path.basename] and [os.path.join], which depend on the platform. *)
Variable basename : string -> string.
Variable join : string -> string -> string.

Definition make_osm_pickle_file_path (extr_dir lyr : string) (feat : option string)
  (suffix : string) : string :=
  let subregion_name := hd EmptyString (str_split "-" (basename extr_dir)) in
  let filename :=
    String.concat "-" (not_none [Some subregion_name; Some lyr; feat; Some suffix])
    ++ ".pickle" in
  let path_to_file := join extr_dir filename in
  path_to_file.
End PicklePath.

(** [posixpath.basename]: the part of a path after its last slash. *)
Fixpoint after_last_slash (p : string) : string :=
  match p with
  | EmptyString => EmptyString
  | String c p' =>
      if str_contains "/" p' then after_last_slash p'
      else if Ascii.eqb c "/" then p' else p
  end.

Definition posix_basename (p : string) : string := after_last_slash p.

Definition is_empty (s : string) : bool :=
  match s with
  | EmptyString => true
  | String _ _ => false
  end.

(** [s.endswith(c)] for one character. *)
Fixpoint ends_with_char (c : ascii) (s : string) : bool :=
  match s with
  | EmptyString => false
  | String a EmptyString => Ascii.eqb a c
  | String _ s' => ends_with_char c s'
  end.

(** [posixpath.join] of two components. *)
Definition posix_join (a b : string) : string :=
  if startswith "/" b then b
  else if is_empty a || ends_with_char "/" a then a ++ b
  else a ++ String "/" b.

(** The file is there; it has a [points] layer with two features and a
    [lines] layer without features. *)
Definition world_with_empty_layer : world :=
  {| w_isfile := true; w_confirmed := false; w_download := Ok true;
     w_layers := Some [ {| l_name := "points";
                           l_features := [Ok (bus_stop 0 0); Ok (bus_stop 1 1)] |};
                        {| l_name := "lines"; l_features := [] |} ] |}.

(** The file is there and both of its layers can be read. *)
Definition world_with_two_layers : world :=
  {| w_isfile := true; w_confirmed := false; w_download := Ok true;
     w_layers :=
       Some [ {| l_name := "points";
                 l_features := [Ok (bus_stop 0 0); Ok (bus_stop 1 1)] |};
              {| l_name := "multipolygons";
                 l_features :=
                   [Ok {| f_other_tags := None;
                          f_geometry :=
                            simple_geometry "MultiPolygon"
                              (JArr [JArr [JArr ring_1; JArr ring_2]]) |}] |} ] |}.

(** The file is missing, the download is confirmed and fails. *)
Definition world_with_failed_download : world :=
  {| w_isfile := false; w_confirmed := true;
     w_download := Err (OtherError "network"); w_layers := None |}.

(** * Properties *)

(** ** Results and [map_result] *)

Ltac inv H := inversion H; subst; clear H.

Lemma map_result_length {A B : Type} (f : A -> result B) (l : list A) (bs : list B) :
  map_result f l = Ok bs -> List.length bs = List.length l.
Proof.
  revert bs; induction l as [|a l IH]; simpl; intros bs H.
  - inv H; reflexivity.
  - destruct (f a) as [b|e]; simpl in H; [|discriminate].
    destruct (map_result f l) as [bs'|e]; simpl in H; [|discriminate].
    inv H; simpl; f_equal; auto.
Qed.

Lemma map_result_all_ok {A B : Type} (f : A -> result B) (g : A -> B) (l : list A) :
  (forall a, In a l -> f a = Ok (g a)) -> map_result f l = Ok (map g l).
Proof.
  induction l as [|a l IH]; simpl; intros H; [reflexivity|].
  rewrite (H a (or_introl eq_refl)); simpl.
  rewrite IH by (intros; apply H; auto); reflexivity.
Qed.

Lemma map_result_app {A B : Type} (f : A -> result B) (l1 l2 : list A) (b1 b2 : list B) :
  map_result f l1 = Ok b1 -> map_result f l2 = Ok b2 ->
  map_result f (l1 ++ l2)%list = Ok (b1 ++ b2)%list.
Proof.
  revert b1; induction l1 as [|a l1 IH]; simpl; intros b1 H1 H2.
  - inv H1; assumption.
  - destruct (f a) as [b|e]; simpl in *; [|discriminate].
    destruct (map_result f l1) as [bs|e]; simpl in *; [|discriminate].
    inv H1. rewrite (IH bs eq_refl H2); reflexivity.
Qed.

(** When [f] can only raise [e0] and fails on some element, the whole
    traversal raises [e0]. *)
Lemma map_result_raises {A B : Type} (f : A -> result B) (e0 : exn) (l : list A) :
  (forall a e, f a = Err e -> e = e0) ->
  (exists a, In a l /\ is_ok (f a) = false) ->
  map_result f l = Err e0.
Proof.
  intros Hf; induction l as [|a l IH]; intros [x [Hin Hx]]; [destruct Hin|].
  simpl. destruct (f a) as [b|e] eqn:Ea; simpl.
  - destruct Hin as [ -> | Hin ]; [rewrite Ea in Hx; discriminate|].
    rewrite IH by (exists x; auto); reflexivity.
  - rewrite (Hf a e Ea); reflexivity.
Qed.

Lemma map_result_only_raises {A B : Type} (f : A -> result B) (e0 : exn) (l : list A) (e : exn) :
  (forall a e, f a = Err e -> e = e0) -> map_result f l = Err e -> e = e0.
Proof.
  intros Hf; induction l as [|a l IH]; simpl; [discriminate|].
  destruct (f a) as [b|e'] eqn:Ea; simpl.
  - destruct (map_result f l) as [bs|e'']; simpl; [discriminate|].
    intros H; inv H; auto.
  - intros H; inv H; eauto.
Qed.

(** ** Strings *)

Lemma append_assoc (a b c : string) : (a ++ b) ++ c = a ++ (b ++ c).
Proof. induction a as [|x a IH]; simpl; [reflexivity | now rewrite IH]. Qed.

Lemma append_nil_r (a : string) : a ++ EmptyString = a.
Proof. induction a as [|x a IH]; simpl; [reflexivity | now rewrite IH]. Qed.

Lemma prepend_prepend_string (c : ascii) (u : string) (l : list string) :
  prepend c (prepend_string u l) = prepend_string (String c u) l.
Proof. destruct l; reflexivity. Qed.

Lemma prepend_string_nil (l : list string) :
  l <> [] -> prepend_string EmptyString l = l.
Proof. destruct l; [congruence | reflexivity]. Qed.

Lemma dq_free_cons (c : ascii) (s : string) :
  dq_free (String c s) = true -> Ascii.eqb c dq = false /\ dq_free s = true.
Proof.
  simpl; intros H; apply andb_true_iff in H; destruct H as [H1 H2].
  split; [now apply negb_true_iff in H1 | assumption].
Qed.

Lemma dq_free_app (a b : string) :
  dq_free (a ++ b) = dq_free a && dq_free b.
Proof.
  induction a as [|x a IH]; simpl; [reflexivity|].
  now rewrite IH, andb_assoc.
Qed.

Lemma plain_spec (s : string) :
  plain s = true <-> dq_free s = true /\ s <> ",".
Proof.
  unfold plain; rewrite andb_true_iff, negb_true_iff, String.eqb_neq; tauto.
Qed.

(** ** The scan of [re.split] *)

Lemma re_split_from_not_nil (b : bool) (s : string) : re_split_from b s <> [].
Proof.
  revert b; induction s as [|c s IH]; intros b; simpl; [discriminate|].
  destruct (b && Ascii.eqb c "," && starts_with_dq s); [discriminate|].
  specialize (IH (Ascii.eqb c dq)).
  destruct (re_split_from (Ascii.eqb c dq) s); [congruence | discriminate].
Qed.

(** No cut inside a run of characters without a double quote, unless the
    run is a single comma enclosed in double quotes. *)
Lemma re_split_from_run (u w : string) (b : bool) :
  dq_free u = true ->
  b = false \/ u <> "," \/ starts_with_dq w = false ->
  re_split_from b (u ++ w) =
  prepend_string u (re_split_from (match u with EmptyString => b | _ => false end) w).
Proof.
  revert b; induction u as [|c u IH]; intros b Hu Hcut.
  - simpl. symmetry; apply prepend_string_nil, re_split_from_not_nil.
  - apply dq_free_cons in Hu; destruct Hu as [Hc Hu].
    change (String c u ++ w) with (String c (u ++ w)).
    cbn [re_split_from]. rewrite Hc.
    assert (Hno : b && Ascii.eqb c "," && starts_with_dq (u ++ w) = false).
    { destruct u as [|c' u'].
      - simpl. destruct Hcut as [ -> | [ Hne | -> ] ]; [reflexivity| |apply andb_false_r].
        destruct (Ascii.eqb_spec c ","); [subst; congruence|].
        now rewrite andb_false_r.
      - simpl. apply dq_free_cons in Hu; destruct Hu as [-> _].
        apply andb_false_r. }
    rewrite Hno.
    rewrite (IH false Hu (or_introl eq_refl)).
    rewrite prepend_prepend_string.
    destruct u; reflexivity.
Qed.

Lemma tag_sep_unfold :
  tag_sep = String dq (String "=" (String ">" (String dq EmptyString))).
Proof. reflexivity. Qed.

Lemma encode_pair_app (k v w : string) :
  encode_pair (k, v) ++ w =
  String dq (k ++ String dq (String "=" (String ">" (String dq (v ++ String dq w))))).
Proof.
  unfold encode_pair; simpl. rewrite !append_assoc. simpl.
  now rewrite !append_assoc.
Qed.

Lemma encode_pair_unfold (k v : string) :
  encode_pair (k, v) =
  String dq (k ++ String dq (String "=" (String ">" (String dq (v ++ String dq EmptyString))))).
Proof. rewrite <- (append_nil_r (encode_pair (k, v))). apply encode_pair_app. Qed.

(** The scan goes through one encoded pair without a cut and leaves it
    on a double quote. *)
Lemma re_split_from_pair (k v w : string) (b : bool) :
  plain k = true -> plain v = true ->
  re_split_from b (encode_pair (k, v) ++ w) =
  prepend_string (encode_pair (k, v)) (re_split_from true w).
Proof.
  intros Hk Hv. apply plain_spec in Hk, Hv.
  destruct Hk as [Hk Hk'], Hv as [Hv Hv'].
  rewrite encode_pair_app, encode_pair_unfold.
  cbn [re_split_from].
  replace (Ascii.eqb dq ",") with false by reflexivity.
  rewrite andb_false_r; cbn [andb].
  replace (Ascii.eqb dq dq) with true by reflexivity.
  rewrite (re_split_from_run k _ true Hk) by auto.
  set (b1 := match k with EmptyString => true | _ => false end).
  cbn [re_split_from].
  replace (Ascii.eqb dq ",") with false by reflexivity.
  replace (Ascii.eqb "=" ",") with false by reflexivity.
  replace (Ascii.eqb ">" ",") with false by reflexivity.
  rewrite !andb_false_r; cbn [andb].
  replace (Ascii.eqb dq dq) with true by reflexivity.
  rewrite (re_split_from_run v _ true Hv) by auto.
  cbn [re_split_from].
  replace (Ascii.eqb dq ",") with false by reflexivity.
  rewrite andb_false_r; cbn [andb].
  replace (Ascii.eqb dq dq) with true by reflexivity.
  pose proof (re_split_from_not_nil true w) as Hw.
  destruct (re_split_from true w) as [|seg rest]; [congruence|].
  simpl. rewrite !append_assoc. simpl. now rewrite !append_assoc.
Qed.

Lemma re_split_from_encode (pairs : list (string * string)) (b : bool) :
  pairs <> [] -> forallb plain_pair pairs = true ->
  re_split_from b (encode_tags pairs) = map encode_pair pairs.
Proof.
  unfold encode_tags.
  revert b; induction pairs as [|[k v] rest IH]; intros b Hne Hall; [congruence|].
  simpl in Hall. apply andb_true_iff in Hall; destruct Hall as [Hkv Hall].
  apply andb_true_iff in Hkv; destruct Hkv as [Hk Hv]; simpl in Hk, Hv.
  destruct rest as [|kv' rest'].
  - change (String.concat "," (map encode_pair [(k, v)])) with (encode_pair (k, v)).
    rewrite <- (append_nil_r (encode_pair (k, v))) at 1.
    rewrite re_split_from_pair by assumption.
    cbn [re_split_from prepend_string map]. now rewrite append_nil_r.
  - change (String.concat "," (map encode_pair ((k, v) :: kv' :: rest')))
      with (encode_pair (k, v) ++ String "," (String.concat "," (map encode_pair (kv' :: rest')))).
    rewrite re_split_from_pair by assumption.
    cbn [re_split_from andb].
    replace (Ascii.eqb "," ",") with true by reflexivity.
    assert (Hs : starts_with_dq (String.concat "," (map encode_pair (kv' :: rest'))) = true).
    { simpl. destruct (map encode_pair rest'); reflexivity. }
    rewrite Hs. cbn [andb prepend_string].
    rewrite append_nil_r.
    rewrite (IH false) by (congruence || assumption).
    reflexivity.
Qed.

(** ** The substitution of [re.sub] and the split on the separator *)

Lemma strip_tail_run (u w : string) :
  dq_free u = true -> strip_tail (u ++ w) = u ++ strip_tail w.
Proof.
  induction u as [|c u IH]; intros Hu; [reflexivity|].
  apply dq_free_cons in Hu; destruct Hu as [Hc Hu].
  simpl. rewrite Hc. simpl. now rewrite IH.
Qed.

Lemma at_end_before_dq (v : string) : at_end (v ++ String dq EmptyString) = false.
Proof. destruct v as [|c [|c' v]]; reflexivity. Qed.

Lemma re_sub_quotes_pair (k v : string) :
  dq_free k = true -> dq_free v = true ->
  re_sub_quotes (encode_pair (k, v)) = k ++ tag_sep ++ v.
Proof.
  intros Hk Hv. rewrite encode_pair_unfold.
  cbn [re_sub_quotes]. replace (Ascii.eqb dq dq) with true by reflexivity.
  rewrite (strip_tail_run k) by assumption.
  f_equal. rewrite tag_sep_unfold.
  cbn [strip_tail at_end append].
  replace (Ascii.eqb "=" dq) with false by reflexivity.
  replace (Ascii.eqb ">" dq) with false by reflexivity.
  replace (Ascii.eqb dq dq) with true by reflexivity.
  cbn [andb]. rewrite at_end_before_dq. cbn [andb].
  rewrite (strip_tail_run v) by assumption.
  simpl. now rewrite append_nil_r.
Qed.

Lemma split_from_not_nil (sep : string) (n : nat) (s : string) : split_from sep n s <> [].
Proof.
  revert n; induction s as [|c s IH]; intros n; simpl; [discriminate|].
  destruct n; [|apply IH].
  destruct (startswith sep (String c s)); [discriminate|].
  specialize (IH 0). destruct (split_from sep 0 s); [congruence | discriminate].
Qed.

Lemma split_from_run (u w : string) :
  dq_free u = true ->
  split_from tag_sep 0 (u ++ w) = prepend_string u (split_from tag_sep 0 w).
Proof.
  induction u as [|c u IH]; intros Hu.
  - simpl. symmetry; apply prepend_string_nil, split_from_not_nil.
  - apply dq_free_cons in Hu; destruct Hu as [Hc Hu].
    change (String c u ++ w) with (String c (u ++ w)).
    cbn [split_from].
    assert (Hs : startswith tag_sep (String c (u ++ w)) = false).
    { rewrite tag_sep_unfold. cbn [startswith]. rewrite Ascii.eqb_sym, Hc. reflexivity. }
    rewrite Hs, IH by assumption.
    apply prepend_prepend_string.
Qed.

Lemma str_split_pair (k v : string) :
  dq_free k = true -> dq_free v = true ->
  str_split tag_sep (k ++ tag_sep ++ v) = [k; v].
Proof.
  intros Hk Hv. unfold str_split.
  rewrite split_from_run by assumption.
  rewrite tag_sep_unfold at 2.
  cbn [append split_from].
  replace (startswith tag_sep
             (String dq (String "=" (String ">" (String dq v))))) with true
    by (rewrite tag_sep_unfold; cbn [startswith]; reflexivity).
  replace (String.length tag_sep - 1) with 3 by reflexivity.
  cbn [split_from].
  rewrite <- (append_nil_r v) at 1.
  rewrite split_from_run by assumption.
  simpl. now rewrite !append_nil_r.
Qed.

Lemma map_result_map {A B C : Type} (f : B -> result C) (g : A -> B) (l : list A) :
  map_result f (map g l) = map_result (fun a => f (g a)) l.
Proof.
  induction l as [|a l IH]; simpl; [reflexivity | now rewrite IH].
Qed.

Lemma forallb_plain_pair_In (pairs : list (string * string)) (k v : string) :
  forallb plain_pair pairs = true -> In (k, v) pairs ->
  (dq_free k = true /\ k <> ",") /\ (dq_free v = true /\ v <> ",").
Proof.
  intros Hall Hin. rewrite forallb_forall in Hall.
  specialize (Hall _ Hin). unfold plain_pair in Hall; simpl in Hall.
  apply andb_true_iff in Hall. rewrite !plain_spec in Hall. exact Hall.
Qed.

(** Decoding an encoded, non-empty list of plain pairs finds the pairs. *)
Lemma tag_pairs_encode (pairs : list (string * string)) :
  pairs <> [] -> forallb plain_pair pairs = true ->
  tag_pairs (encode_tags pairs) = Ok pairs.
Proof.
  intros Hne Hall. unfold tag_pairs, raw_other_tags, re_split_tags.
  rewrite re_split_from_encode by assumption.
  rewrite !map_result_map.
  rewrite (map_result_all_ok _ (fun kv => kv)).
  - now rewrite map_id.
  - intros [k v] Hin.
    destruct (forallb_plain_pair_In _ _ _ Hall Hin) as [[Hk _] [Hv _]].
    rewrite re_sub_quotes_pair, str_split_pair by assumption.
    reflexivity.
Qed.

(** ** The replacement of the line-break mark *)

Lemma dq_free_replace_from (old new : string) (n : nat) (s : string) :
  dq_free new = true -> dq_free s = true ->
  dq_free (replace_from old new n s) = true.
Proof.
  intros Hnew. revert n; induction s as [|c s IH]; intros n Hs; [reflexivity|].
  apply dq_free_cons in Hs; destruct Hs as [Hc Hs].
  simpl. destruct n; [|auto].
  destruct (startswith old (String c s)).
  - rewrite dq_free_app, Hnew; simpl; auto.
  - simpl. rewrite Hc; simpl; auto.
Qed.

Lemma dq_free_br_to_space (v : string) :
  dq_free v = true -> dq_free (br_to_space v) = true.
Proof. intros; apply dq_free_replace_from; auto. Qed.

Lemma br_to_space_cons (c : ascii) (s : string) :
  br_to_space (String c s) =
  if startswith "<br>" (String c s)
  then String " " (replace_from "<br>" " " 3 s)
  else String c (br_to_space s).
Proof. reflexivity. Qed.

Lemma br_to_space_nil_inv (v : string) :
  br_to_space v = EmptyString -> v = EmptyString.
Proof.
  destruct v as [|c v]; [reflexivity|].
  rewrite br_to_space_cons.
  destruct (startswith "<br>" (String c v)); discriminate.
Qed.

Lemma br_to_space_comma_inv (v : string) :
  br_to_space v = "," -> v = ",".
Proof.
  destruct v as [|c v]; [discriminate|].
  rewrite br_to_space_cons.
  destruct (startswith "<br>" (String c v)); [discriminate|].
  intros H; inversion H as [[Hc Hv]].
  now rewrite (br_to_space_nil_inv _ Hv).
Qed.

Lemma plain_br_to_space (v : string) :
  plain v = true -> plain (br_to_space v) = true.
Proof.
  rewrite !plain_spec. intros [Hd Hne]; split.
  - now apply dq_free_br_to_space.
  - intros H; apply Hne, br_to_space_comma_inv, H.
Qed.

(** A prefix without a space that shows after the replacement was there
    before it. *)
Lemma startswith_br_to_space (p s : string) :
  mem_ascii " " p = false ->
  startswith p (br_to_space s) = true -> startswith p s = true.
Proof.
  revert s; induction p as [|a p IH]; intros s Hp H; [reflexivity|].
  simpl in Hp. apply orb_false_iff in Hp; destruct Hp as [Ha Hp].
  destruct s as [|c s]; [discriminate H|].
  rewrite br_to_space_cons in H.
  destruct (startswith "<br>" (String c s)).
  - simpl in H. rewrite Ha in H. discriminate.
  - simpl in H |- *. apply andb_true_iff in H; destruct H as [Hac H].
    rewrite Hac; simpl. auto.
Qed.

Lemma replace_from_no_mark (n : nat) (s : string) :
  str_contains "<br>" (replace_from "<br>" " " n s) = false.
Proof.
  revert n; induction s as [|c s IH]; intros n; [reflexivity|].
  cbn [replace_from]. destruct n; [|apply IH].
  destruct (startswith "<br>" (String c s)) eqn:Hs.
  - change (" " ++ replace_from "<br>" " " (String.length "<br>" - 1) s)
      with (String " " (replace_from "<br>" " " (String.length "<br>" - 1) s)).
    cbn [str_contains]. rewrite IH. reflexivity.
  - cbn [str_contains]. rewrite IH, orb_false_r.
    destruct (startswith "<br>" (String c (replace_from "<br>" " " 0 s))) eqn:Hr;
      [|reflexivity].
    rewrite <- Hs. symmetry.
    apply (startswith_br_to_space "<br>" (String c s)); [reflexivity|].
    rewrite br_to_space_cons, Hs. exact Hr.
Qed.

Lemma br_to_space_no_mark (s : string) :
  str_contains "<br>" s = false -> br_to_space s = s.
Proof.
  induction s as [|c s IH]; intros H; [reflexivity|].
  cbn [str_contains] in H. apply orb_false_iff in H; destruct H as [Hs H].
  rewrite br_to_space_cons, Hs. now rewrite IH.
Qed.

Lemma br_to_space_idempotent (s : string) :
  br_to_space (br_to_space s) = br_to_space s.
Proof. apply br_to_space_no_mark, replace_from_no_mark. Qed.

(** ** Dictionaries *)

Section DictFacts.
Context {V : Type}.
Implicit Types (d : dict V) (k : string) (v : V).

Lemma dict_set_not_nil k v d : dict_set k v d <> [].
Proof. destruct d as [|[k' v'] d]; simpl; [|destruct (String.eqb k' k)]; discriminate. Qed.

Lemma dict_get_set_same k v d : dict_get (dict_set k v d) k = Some v.
Proof.
  induction d as [|[k' v'] d IH]; simpl.
  - now rewrite String.eqb_refl.
  - destruct (String.eqb k' k) eqn:E; simpl; rewrite E; auto.
Qed.

Lemma dict_get_set_other k k0 v d :
  k0 <> k -> dict_get (dict_set k v d) k0 = dict_get d k0.
Proof.
  intros Hne; induction d as [|[k' v'] d IH]; simpl.
  - apply String.eqb_neq in Hne. rewrite String.eqb_sym, Hne. reflexivity.
  - destruct (String.eqb k' k) eqn:E; simpl.
    + apply String.eqb_eq in E; subst k'.
      apply String.eqb_neq in Hne. rewrite String.eqb_sym in Hne. now rewrite Hne.
    + now rewrite IH.
Qed.

Lemma dict_keys_set k v d x :
  In x (dict_keys (dict_set k v d)) <-> x = k \/ In x (dict_keys d).
Proof.
  unfold dict_keys. induction d as [|[k' v'] d IH]; simpl.
  - intuition.
  - destruct (String.eqb k' k) eqn:E; simpl.
    + apply String.eqb_eq in E; subst k'. intuition.
    + rewrite IH. intuition.
Qed.

Lemma dict_keys_set_NoDup k v d :
  NoDup (dict_keys d) -> NoDup (dict_keys (dict_set k v d)).
Proof.
  unfold dict_keys. induction d as [|[k' v'] d IH]; simpl; intros H.
  - constructor; [intros [] | constructor].
  - inv H. destruct (String.eqb k' k) eqn:E; simpl.
    + now constructor.
    + constructor; [|auto].
      intros Hin. apply (dict_keys_set k v d k') in Hin.
      destruct Hin as [Hin|Hin]; [|contradiction].
      subst k'. rewrite String.eqb_refl in E. discriminate.
Qed.

Lemma dict_set_In k v d kv :
  In kv (dict_set k v d) -> kv = (k, v) \/ In kv d.
Proof.
  induction d as [|[k' v'] d IH]; simpl.
  - intuition.
  - destruct (String.eqb k' k) eqn:E; simpl.
    + apply String.eqb_eq in E; subst k'. intuition.
    + intuition.
Qed.

Lemma dict_set_fresh k v d :
  ~ In k (dict_keys d) -> dict_set k v d = (d ++ [(k, v)])%list.
Proof.
  unfold dict_keys. induction d as [|[k' v'] d IH]; simpl; intros H; [reflexivity|].
  destruct (String.eqb k' k) eqn:E.
  - apply String.eqb_eq in E. tauto.
  - rewrite IH by tauto. reflexivity.
Qed.

Lemma fold_enter_not_nil (l : list (string * V)) d :
  d <> [] -> fold_left enter l d <> [].
Proof.
  revert d; induction l as [|[k v] l IH]; simpl; intros d H; [assumption|].
  apply IH, dict_set_not_nil.
Qed.

Lemma fold_enter_NoDup (l : list (string * V)) d :
  NoDup (dict_keys d) -> NoDup (dict_keys (fold_left enter l d)).
Proof.
  revert d; induction l as [|[k v] l IH]; simpl; intros d H; [assumption|].
  apply IH, dict_keys_set_NoDup, H.
Qed.

Lemma fold_enter_In (l : list (string * V)) d kv :
  In kv (fold_left enter l d) -> In kv d \/ In kv l.
Proof.
  revert d; induction l as [|[k v] l IH]; simpl; intros d H; [auto|].
  apply IH in H. destruct H as [H|H]; [|auto].
  apply dict_set_In in H. intuition.
Qed.

Lemma fold_enter_keys (l : list (string * V)) d k :
  In k (dict_keys (fold_left enter l d)) <-> In k (dict_keys d) \/ In k (map fst l).
Proof.
  revert d; induction l as [|[k0 v] l IH]; simpl; intros d; [tauto|].
  rewrite IH. unfold enter; simpl. rewrite dict_keys_set. intuition.
Qed.

Lemma fold_enter_fresh (l : list (string * V)) d :
  NoDup (map fst (d ++ l)%list) -> fold_left enter l d = (d ++ l)%list.
Proof.
  revert d; induction l as [|[k v] l IH]; simpl; intros d H.
  - now rewrite app_nil_r.
  - unfold enter at 2; simpl.
    assert (Hk : ~ In k (dict_keys d)).
    { rewrite map_app in H. simpl in H. apply NoDup_remove_2 in H.
      intros Hin; apply H, in_or_app; auto. }
    rewrite dict_set_fresh by assumption.
    rewrite IH; rewrite <- app_assoc; simpl; auto.
Qed.

Lemma dict_of_not_nil (l : list (string * V)) : l <> [] -> dict_of l <> [].
Proof.
  destruct l as [|[k v] l]; [congruence|]. intros _.
  unfold dict_of; cbn [fold_left]. apply (fold_enter_not_nil l), dict_set_not_nil.
Qed.

Lemma dict_of_NoDup (l : list (string * V)) : NoDup (dict_keys (dict_of l)).
Proof. apply (fold_enter_NoDup l []); constructor. Qed.

Lemma dict_of_In (l : list (string * V)) kv : In kv (dict_of l) -> In kv l.
Proof. intros H; apply (fold_enter_In l []) in H; destruct H as [[]|H]; exact H. Qed.

Lemma dict_of_keys (l : list (string * V)) k :
  In k (dict_keys (dict_of l)) <-> In k (map fst l).
Proof. unfold dict_of; rewrite (fold_enter_keys l []); simpl; tauto. Qed.

(** Entering the items of a dictionary into an empty one gives the
    dictionary back. *)
Lemma dict_of_items (d : dict V) : NoDup (dict_keys d) -> dict_of d = d.
Proof. intros H; apply (fold_enter_fresh d []); exact H. Qed.
End DictFacts.

(** Reading a key after the pairs were entered: the last pair with that
    key decides. *)
Lemma fold_enter_get (f : string -> string) (l : list (string * string))
  (d : dict string) (k : string) :
  dict_get (fold_left enter (map (fun kv => (fst kv, f (snd kv))) l) d) k =
  match last_value k l with
  | Some v => Some (f v)
  | None => dict_get d k
  end.
Proof.
  revert d; induction l as [|[k0 v0] l IH]; intros d; [reflexivity|].
  cbn [map fold_left last_value fst snd]. rewrite IH.
  destruct (last_value k l) as [v|]; [reflexivity|].
  unfold enter; cbn [fst snd].
  destruct (String.eqb k0 k) eqn:E.
  - apply String.eqb_eq in E; subst k0. apply dict_get_set_same.
  - apply String.eqb_neq in E. apply dict_get_set_other. congruence.
Qed.

Lemma dict_of_get (f : string -> string) (l : list (string * string)) (k : string) :
  dict_get (dict_of (map (fun kv => (fst kv, f (snd kv))) l)) k =
  option_map f (last_value k l).
Proof.
  unfold dict_of. rewrite fold_enter_get. destruct (last_value k l); reflexivity.
Qed.

Lemma last_value_Some_In (k v : string) (l : list (string * string)) :
  last_value k l = Some v -> In (k, v) l.
Proof.
  induction l as [|[k0 v0] l IH]; simpl; [discriminate|].
  destruct (last_value k l) as [v'|].
  - intros H; inv H; auto.
  - destruct (String.eqb k0 k) eqn:E; [|discriminate].
    apply String.eqb_eq in E. intros H; inv H; auto.
Qed.

Lemma last_value_In (k : string) (l : list (string * string)) :
  In k (map fst l) -> exists v, last_value k l = Some v /\ In (k, v) l.
Proof.
  intros Hin.
  assert (H : exists v, last_value k l = Some v).
  { induction l as [|[k0 v0] l IH]; simpl in *; [destruct Hin|].
    destruct (last_value k l) as [v'|]; [eauto|].
    destruct Hin as [Hin|Hin].
    - subst k0. rewrite String.eqb_refl. eauto.
    - destruct (IH Hin) as [v Hv]. discriminate. }
  destruct H as [v Hv]. exists v; split; [assumption|].
  now apply last_value_Some_In.
Qed.

Lemma count_occ_positive_In (k : string) (l : list string) :
  1 < count_occ string_dec l k -> In k l.
Proof. intros H. apply (count_occ_In string_dec). lia. Qed.

(** ** [parse_other_tags] *)

Lemma unpack_pair_raises (parts : list string) (e : exn) :
  unpack_pair parts = Err e -> e = ValueError.
Proof.
  destruct parts as [|k [|v [|x parts]]]; simpl; intros H; now inv H.
Qed.

Lemma unpack_pair_is_ok (parts : list string) :
  is_ok (unpack_pair parts) = Nat.eqb (List.length parts) 2.
Proof. destruct parts as [|k [|v [|x parts]]]; reflexivity. Qed.

Lemma tag_pairs_raises (s : string) (e : exn) :
  tag_pairs s = Err e -> e = ValueError.
Proof.
  unfold tag_pairs. apply map_result_only_raises.
  intros a e'. apply unpack_pair_raises.
Qed.

Lemma parse_other_tags_raises (x : option string) (e : exn) :
  parse_other_tags x = Err e -> e = ValueError.
Proof.
  destruct x as [s|]; simpl; [|discriminate].
  destruct (tag_pairs s) as [kvs|e'] eqn:E; simpl; [discriminate|].
  intros H; inv H. eapply tag_pairs_raises; eauto.
Qed.

Lemma tag_pairs_not_nil (s : string) (kvs : list (string * string)) :
  tag_pairs s = Ok kvs -> kvs <> [].
Proof.
  unfold tag_pairs, raw_other_tags, re_split_tags. intros H.
  apply map_result_length in H. rewrite length_map in H.
  pose proof (re_split_from_not_nil false s) as Hne.
  destruct (re_split_from false s); [congruence|].
  destruct kvs; [discriminate | discriminate].
Qed.

Lemma parse_other_tags_malformed (s : string) :
  malformed s = true -> parse_other_tags (Some s) = Err ValueError.
Proof.
  unfold malformed. intros H. apply existsb_exists in H.
  destruct H as [seg [Hin Hseg]].
  simpl. unfold tag_pairs.
  rewrite (map_result_raises _ ValueError).
  - reflexivity.
  - intros a e. apply unpack_pair_raises.
  - exists seg; split; [assumption|].
    rewrite unpack_pair_is_ok. now apply negb_true_iff.
Qed.

(** C5, as amended: a null input gives null; a non-null input either
    raises [ValueError] or gives a mapping, and that mapping is never
    empty.  So a null output and a mapping are always told apart, while
    no input decodes to the empty mapping. *)
Theorem parse_other_tags_null_or_nonempty (x : option string) :
  match x with
  | None => parse_other_tags x = Ok None
  | Some s =>
      parse_other_tags x = Err ValueError \/
      exists d, parse_other_tags x = Ok (Some d) /\ d <> []
  end.
Proof.
  destruct x as [s|]; [|reflexivity].
  simpl. destruct (tag_pairs s) as [kvs|e] eqn:E; simpl.
  - right. eexists; split; [reflexivity|].
    apply dict_of_not_nil. pose proof (tag_pairs_not_nil _ _ E).
    destruct kvs; [congruence | discriminate].
  - left. now rewrite (tag_pairs_raises _ _ E).
Qed.

(** C5, counterexample: the empty string is a non-null input and is not
    decoded to a mapping; its only segment has no separator and the
    unpacking raises. *)
Lemma parse_other_tags_empty_string :
  parse_other_tags (Some EmptyString) = Err ValueError.
Proof. reflexivity. Qed.

(** C10: when a key occurs in more than one of the pairs of a blob, the
    decoded mapping has exactly one entry for it, and its value is the
    decoded value of the last of these pairs.  [kvs] are the pairs the
    comprehension finds in the blob. *)
Theorem parse_other_tags_last_wins (s : string) (kvs : list (string * string))
  (k : string) :
  tag_pairs s = Ok kvs ->
  1 < count_occ string_dec (map fst kvs) k ->
  exists d v,
    parse_other_tags (Some s) = Ok (Some d) /\
    last_value k kvs = Some v /\
    dict_get d k = Some (br_to_space v) /\
    count_occ string_dec (dict_keys d) k = 1.
Proof.
  intros Hs Hk. apply count_occ_positive_In in Hk.
  destruct (last_value_In _ _ Hk) as [v [Hv _]].
  exists (dict_of (map (fun kv => (fst kv, br_to_space (snd kv))) kvs)), v.
  split; [simpl; rewrite Hs; reflexivity|].
  split; [assumption|].
  split; [rewrite dict_of_get, Hv; reflexivity|].
  apply NoDup_count_occ'; [apply dict_of_NoDup|].
  apply dict_of_keys. rewrite map_map; simpl. exact Hk.
Qed.

Lemma parse_other_tags_last_wins_witness :
  exists d v,
    parse_other_tags
      (Some (encode_tags [("highway", "bus_stop"); ("name", "A"); ("highway", "stop<br>sign")])) =
    Ok (Some d) /\
    last_value "highway"
      [("highway", "bus_stop"); ("name", "A"); ("highway", "stop<br>sign")] = Some v /\
    dict_get d "highway" = Some (br_to_space v) /\
    count_occ string_dec (dict_keys d) "highway" = 1.
Proof.
  apply (parse_other_tags_last_wins
           (encode_tags [("highway", "bus_stop"); ("name", "A"); ("highway", "stop<br>sign")])
           [("highway", "bus_stop"); ("name", "A"); ("highway", "stop<br>sign")]
           "highway").
  - vm_compute; reflexivity.
  - vm_compute; lia.
Defined.

Lemma parse_other_tags_encode (pairs : list (string * string)) :
  pairs <> [] -> forallb plain_pair pairs = true ->
  parse_other_tags (Some (encode_tags pairs)) =
  Ok (Some (dict_of (map (fun kv => (fst kv, br_to_space (snd kv))) pairs))).
Proof.
  intros Hne Hall. simpl. now rewrite tag_pairs_encode.
Qed.

(** C6, as amended: for one or more pairs whose keys and values hold no
    double quote and are not a lone comma, decoding the encoded blob
    gives the mapping of each key to the value of its last pair, with
    the line-break mark replaced by a space; encoding that mapping and
    decoding again gives the same mapping. *)
Theorem decode_encode_round_trip (pairs : list (string * string)) :
  pairs <> [] -> forallb plain_pair pairs = true ->
  exists d,
    parse_other_tags (Some (encode_tags pairs)) = Ok (Some d) /\
    (forall k, dict_get d k = option_map br_to_space (last_value k pairs)) /\
    parse_other_tags (Some (encode_tags d)) = Ok (Some d).
Proof.
  intros Hne Hall.
  set (d := dict_of (map (fun kv => (fst kv, br_to_space (snd kv))) pairs)).
  exists d. split; [now apply parse_other_tags_encode|].
  split; [intros k; apply dict_of_get|].
  assert (Hin : forall k v, In (k, v) d ->
            exists v0, In (k, v0) pairs /\ v = br_to_space v0).
  { intros k v H. apply dict_of_In in H. apply in_map_iff in H.
    destruct H as [[k0 v0] [Heq H]]. simpl in Heq. inv Heq. eauto. }
  assert (Hd : d <> []).
  { apply dict_of_not_nil. destruct pairs; [congruence | discriminate]. }
  assert (Hplain : forallb plain_pair d = true).
  { apply forallb_forall. intros [k v] H.
    destruct (Hin _ _ H) as [v0 [H0 ->]].
    destruct (forallb_plain_pair_In _ _ _ Hall H0) as [Hk Hv].
    unfold plain_pair; simpl. apply andb_true_iff; split.
    - now apply plain_spec.
    - apply plain_br_to_space. now apply plain_spec. }
  rewrite parse_other_tags_encode by assumption.
  do 2 f_equal.
  replace (map (fun kv => (fst kv, br_to_space (snd kv))) d) with d.
  - apply dict_of_items, dict_of_NoDup.
  - rewrite <- (map_id d) at 1. apply map_ext_in.
    intros [k v] H. destruct (Hin _ _ H) as [v0 [_ ->]].
    simpl. now rewrite br_to_space_idempotent.
Qed.

Lemma decode_encode_round_trip_witness :
  exists d,
    parse_other_tags
      (Some (encode_tags [("name", "A, B<br>C"); ("ref", "1"); ("name", "D")])) =
    Ok (Some d) /\
    (forall k, dict_get d k =
       option_map br_to_space
         (last_value k [("name", "A, B<br>C"); ("ref", "1"); ("name", "D")])) /\
    parse_other_tags (Some (encode_tags d)) = Ok (Some d).
Proof.
  apply (decode_encode_round_trip [("name", "A, B<br>C"); ("ref", "1"); ("name", "D")]).
  - discriminate.
  - vm_compute; reflexivity.
Defined.

(** C6, counterexample: the blob of zero pairs is the empty string, and
    decoding it raises instead of giving the empty mapping. *)
Lemma decode_encode_no_pairs :
  encode_tags [] = EmptyString /\
  parse_other_tags (Some (encode_tags [])) = Err ValueError.
Proof. split; reflexivity. Qed.

(** ** The formatters *)

Lemma map_result_not_ok {A B : Type} (f : A -> result B) (l : list A) :
  (exists a, In a l /\ is_ok (f a) = false) -> is_ok (map_result f l) = false.
Proof.
  induction l as [|a l IH]; intros [x [Hin Hx]]; [destruct Hin|].
  simpl. destruct (f a) as [b|e] eqn:Ea; [|reflexivity].
  destruct Hin as [ -> | Hin ]; [rewrite Ea in Hx; discriminate|].
  simpl. specialize (IH (ex_intro _ x (conj Hin Hx))).
  destruct (map_result f l); [discriminate | reflexivity].
Qed.

Lemma map_result_middle {A B : Type} (f : A -> result B) (l1 l2 : list A) (a : A)
  (b1 b2 : list B) (b : B) :
  map_result f l1 = Ok b1 -> f a = Ok b -> map_result f l2 = Ok b2 ->
  map_result f (l1 ++ a :: l2)%list = Ok (b1 ++ b :: b2)%list.
Proof.
  intros H1 Ha H2. apply map_result_app; [assumption|].
  simpl. now rewrite Ha, H2.
Qed.

Lemma map_result_stops {A B : Type} (f : A -> result B) (l1 l2 : list A) (a : A)
  (b1 : list B) (e : exn) :
  map_result f l1 = Ok b1 -> f a = Err e ->
  map_result f (l1 ++ a :: l2)%list = Err e.
Proof.
  revert b1; induction l1 as [|x l1 IH]; simpl; intros b1 H1 Ha.
  - now rewrite Ha.
  - destruct (f x); simpl in *; [|discriminate].
    destruct (map_result f l1); simpl in *; [|discriminate].
    now rewrite (IH _ eq_refl Ha).
Qed.

Lemma combine_map {A B C : Type} (f : A -> B) (g : A -> C) (l : list A) :
  combine (map f l) (map g l) = map (fun a => (f a, g a)) l.
Proof. induction l as [|a l IH]; simpl; [reflexivity | now rewrite IH]. Qed.

Lemma vocabulary_spec (t : string) :
  ~ In t vocabulary <-> dict_get osm_geom_types t = None.
Proof.
  unfold vocabulary, osm_geom_types; cbn [dict_get In].
  repeat match goal with
         | |- context [String.eqb ?a t] => destruct (String.eqb_spec a t)
         end; split; intros H; try discriminate; try reflexivity;
    try (exfalso; apply H; tauto); tauto.
Qed.

Lemma getitem_unknown (t : string) :
  ~ In t vocabulary -> getitem osm_geom_types t = Err (KeyError t).
Proof.
  intros H; apply vocabulary_spec in H. unfold getitem. now rewrite H.
Qed.

(** The comprehension of [format_multi_geometries] runs over the
    descriptors themselves. *)
Lemma format_multi_geometries_unfold (geoms : list descriptor) :
  format_multi_geometries (Some geoms) =
  (geom_collection <-
     map_result (fun d => format_descriptor (d_type d) (d_coordinates d)) geoms ;;
   Ok (PGeom GeometryCollection (PList geom_collection))).
Proof.
  unfold format_multi_geometries. rewrite combine_map, map_result_map. reflexivity.
Qed.

Lemma format_descriptor_unknown (t : string) (coords : json) :
  ~ In t vocabulary -> format_descriptor t coords = Err (KeyError t).
Proof.
  intros H. unfold format_descriptor.
  rewrite (getitem_unknown t H). destruct (negb (str_contains "Polygon" t)); reflexivity.
Qed.

Lemma picked_type (l : list string) (t : string) :
  hd_error l = Some t ->
  match l with
  | t' :: _ => Ok t'
  | [] => Err IndexError
  end = Ok t.
Proof. destruct l; simpl; intros H; now inv H. Qed.

Lemma format_single_geometry_unknown (set_list : list string -> list string)
  (geom_data : list (string * option json)) (t : string) :
  ~ In t vocabulary ->
  hd_error (set_list (map fst geom_data)) = Some t ->
  format_single_geometry set_list geom_data = Err (KeyError t).
Proof.
  intros Ht Hhd. unfold format_single_geometry.
  rewrite (picked_type _ _ Hhd). simpl.
  now rewrite (getitem_unknown t Ht).
Qed.

(** With one type only in the column, that type is the one picked. *)
Lemma picked_homogeneous (set_list : list string -> list string)
  (l : list string) (t : string) :
  lists_the_set set_list -> l <> [] -> (forall x, In x l -> x = t) ->
  hd_error (set_list l) = Some t.
Proof.
  intros Hset Hne Hall.
  destruct l as [|x l]; [congruence|].
  assert (Hx : In x (set_list (x :: l))) by (apply Hset; left; reflexivity).
  destruct (set_list (x :: l)) as [|y ys] eqn:E; [destruct Hx|].
  simpl. f_equal. apply Hall, (Hset (x :: l)). rewrite E. left; reflexivity.
Qed.

Lemma distinct_In (l : list string) (x : string) : In x (distinct l) <-> In x l.
Proof.
  induction l as [|y l IH]; simpl; [tauto|].
  rewrite filter_In, IH, negb_true_iff, String.eqb_neq.
  destruct (string_dec y x); intuition.
Qed.

Lemma distinct_lists_the_set : lists_the_set distinct.
Proof. intros l x; apply distinct_In. Qed.

Lemma distinct_rev_lists_the_set : lists_the_set distinct_rev.
Proof. intros l x; unfold distinct_rev. rewrite <- in_rev. apply distinct_In. Qed.

(** C3: in a MultiPolygon column, a payload that nests two ring groups
    two levels deep becomes one MultiPolygon built from exactly two
    polygons, one Polygon call per ring group, whatever the rows before
    and after it are as long as they format. *)
Theorem format_single_geometry_two_ring_groups
  (set_list : list string -> list string)
  (pre post : list (string * option json)) (ring_group_1 ring_group_2 : json)
  (gs1 gs2 : list pyval) :
  lists_the_set set_list ->
  (forall r, In r (pre ++ post)%list -> fst r = "MultiPolygon") ->
  map_result (format_multipolygon MultiPolygon Polygon) (map snd pre) = Ok gs1 ->
  map_result (format_multipolygon MultiPolygon Polygon) (map snd post) = Ok gs2 ->
  format_single_geometry set_list
    (pre ++ ("MultiPolygon", Some (JArr [JArr [ring_group_1]; JArr [ring_group_2]]))
         :: post)%list =
  Ok (gs1 ++ PGeom MultiPolygon
                   (PGen [PGeom Polygon (PJson ring_group_1);
                          PGeom Polygon (PJson ring_group_2)]) :: gs2)%list.
Proof.
  intros Hset Hall H1 H2. unfold format_single_geometry.
  rewrite (picked_type _ "MultiPolygon").
  - cbn [bind]. change (getitem osm_geom_types "MultiPolygon") with (Ok MultiPolygon).
    cbn [bind]. change (String.eqb "MultiPolygon" "MultiPolygon") with true.
    change (getitem osm_geom_types (lstrip "Multi" "MultiPolygon")) with (Ok Polygon).
    cbn [bind]. rewrite map_app. cbn [map snd].
    apply map_result_middle; [assumption | reflexivity | assumption].
  - apply picked_homogeneous; [assumption | |].
    + destruct pre; discriminate.
    + intros x Hx. rewrite map_app in Hx. cbn [map fst] in Hx.
      apply in_app_or in Hx. destruct Hx as [Hx|[Hx|Hx]]; [|congruence|].
      * apply in_map_iff in Hx. destruct Hx as [r [<- Hr]].
        apply Hall, in_or_app; auto.
      * apply in_map_iff in Hx. destruct Hx as [r [<- Hr]].
        apply Hall, in_or_app; auto.
Qed.

Lemma format_single_geometry_two_ring_groups_witness :
  format_single_geometry distinct
    ([("MultiPolygon", Some (JArr [JArr [JArr ring_1; JArr ring_2]]))] ++
     ("MultiPolygon", Some (JArr [JArr [JArr ring_1]; JArr [JArr ring_2]])) :: [])%list =
  Ok ([PGeom MultiPolygon (PGen [PGeom Polygon (PJson (JArr ring_1));
                                 PGeom Polygon (PJson (JArr ring_2))])] ++
      PGeom MultiPolygon (PGen [PGeom Polygon (PJson (JArr ring_1));
                                PGeom Polygon (PJson (JArr ring_2))]) :: [])%list.
Proof.
  apply (format_single_geometry_two_ring_groups distinct
           [("MultiPolygon", Some (JArr [JArr [JArr ring_1; JArr ring_2]]))] []
           (JArr ring_1) (JArr ring_2)).
  - exact distinct_lists_the_set.
  - simpl. intros r [<-|[]]. reflexivity.
  - reflexivity.
  - reflexivity.
Defined.

(** C2, as amended: a Polygon descriptor whose payload holds two ring
    groups gives exactly one geometry of the collection, a single
    Polygon built from the items of the first group followed by the
    items of the second; the collection holds one geometry per
    descriptor. *)
Theorem format_multi_geometries_polygon_descriptor
  (pre post : list descriptor) (items_1 items_2 : list json)
  (gs1 gs2 : list pyval) :
  map_result (fun d => format_descriptor (d_type d) (d_coordinates d)) pre = Ok gs1 ->
  map_result (fun d => format_descriptor (d_type d) (d_coordinates d)) post = Ok gs2 ->
  format_multi_geometries
    (Some (pre ++ {| d_type := "Polygon";
                     d_coordinates := JArr [JArr items_1; JArr items_2] |} :: post)%list) =
  Ok (PGeom GeometryCollection
        (PList (gs1 ++ PGeom Polygon (PGen (map PJson (items_1 ++ items_2)%list))
                    :: gs2)%list)).
Proof.
  intros H1 H2. rewrite format_multi_geometries_unfold.
  erewrite map_result_middle; [reflexivity | eassumption | | eassumption].
  cbn [d_type d_coordinates]. unfold format_descriptor.
  change (negb (str_contains "Polygon" "Polygon")) with false.
  change (getitem osm_geom_types "Polygon") with (Ok Polygon).
  cbn. now rewrite app_nil_r.
Qed.

Lemma format_multi_geometries_polygon_descriptor_witness :
  format_multi_geometries
    (Some ([ {| d_type := "Point"; d_coordinates := pt 5 5 |} ] ++
           {| d_type := "Polygon"; d_coordinates := JArr [JArr ring_1; JArr ring_2] |}
           :: [])%list) =
  Ok (PGeom GeometryCollection
        (PList ([PGeom Point (PJson (pt 5 5))] ++
                PGeom Polygon (PGen (map PJson (ring_1 ++ ring_2)%list)) :: [])%list)).
Proof.
  apply (format_multi_geometries_polygon_descriptor
           [ {| d_type := "Point"; d_coordinates := pt 5 5 |} ] [] ring_1 ring_2).
  - reflexivity.
  - reflexivity.
Defined.

(** C2, counterexample: for a row with the single descriptor
    [polygon_of_two] the collection holds one polygon, built from the
    eight points of both ring groups, and not the two polygons of the
    claim. *)
Lemma format_multi_geometries_one_polygon :
  format_multi_geometries (Some [polygon_of_two]) =
  Ok (PGeom GeometryCollection
        (PList [PGeom Polygon (PGen (map PJson (ring_1 ++ ring_2)%list))])) /\
  List.length
    (filter is_polygon
       (members (PGeom GeometryCollection
                   (PList [PGeom Polygon (PGen (map PJson (ring_1 ++ ring_2)%list))])))) = 1 /\
  format_multi_geometries (Some [polygon_of_two]) <>
  Ok (PGeom GeometryCollection
        (PList [PGeom Polygon (PJson (JArr ring_1)); PGeom Polygon (PJson (JArr ring_2))])).
Proof. split; [reflexivity | split; [reflexivity | discriminate]]. Qed.

(** ** [parse_layer_data] *)

Lemma column_some {A B : Type} (f : A -> option B) (records : list A) (a : A) :
  In a records -> is_some (f a) = true -> column f records = Some (map f records).
Proof.
  intros Hin Ha. unfold column.
  replace (existsb (fun r => is_some (f r)) records) with true; [reflexivity|].
  symmetry. apply existsb_exists. eauto.
Qed.

Lemma is_ok_bind_l {A B : Type} (r : result A) (k : A -> result B) :
  is_ok r = false -> is_ok (bind r k) = false.
Proof. destruct r; [discriminate | reflexivity]. Qed.

(** C4, as amended: a blob with a segment that does not split into
    exactly two parts makes the decoding of its row raise, and the
    exception leaves [parse_layer_data]: no table is returned for the
    layer, whatever the other rows are. *)
Theorem parse_layer_data_malformed_tags (set_list : list string -> list string)
  (dat : list feature) (geo_typ : string) (f : feature) (x : string) :
  In f dat -> f_other_tags f = Some x -> malformed x = true ->
  parse_layer_data set_list dat geo_typ = Err ValueError.
Proof.
  intros Hin Hx Hbad. unfold parse_layer_data.
  destruct dat as [|f0 dat0] eqn:Edat; [destruct Hin|]. rewrite <- Edat in *.
  rewrite (map_result_raises parse_other_tags ValueError).
  - reflexivity.
  - apply parse_other_tags_raises.
  - exists (Some x); split.
    + rewrite <- Hx. now apply in_map.
    + now rewrite (parse_other_tags_malformed x Hbad).
Qed.

Lemma parse_layer_data_malformed_tags_witness :
  parse_layer_data distinct [bus_stop 0 0; broken_tags 1 1; bus_stop 2 2] "points" =
  Err ValueError.
Proof.
  apply (parse_layer_data_malformed_tags distinct _ "points" (broken_tags 1 1) "highway").
  - simpl; auto.
  - reflexivity.
  - vm_compute; reflexivity.
Defined.

(** C4, counterexample: with a malformed blob in its second row the
    layer of three rows gives no table at all, while the two other rows
    alone give a table of two rows: the offending row is not skipped. *)
Lemma parse_layer_data_does_not_skip :
  parse_layer_data distinct [bus_stop 0 0; broken_tags 1 1; bus_stop 2 2] "points" =
  Err ValueError /\
  parse_layer_data distinct [bus_stop 0 0; bus_stop 2 2] "points" =
  Ok [ {| other_tags := Some [("highway", "bus_stop")]; geom_type := "Point";
          coordinates := PGeom Point (PJson (pt 0 0)); geometries := None |};
       {| other_tags := Some [("highway", "bus_stop")]; geom_type := "Point";
          coordinates := PGeom Point (PJson (pt 2 2)); geometries := None |} ].
Proof. split; vm_compute; reflexivity. Qed.

Lemma map_result_ext {A B : Type} (f g : A -> result B) (l : list A) :
  (forall a, f a = g a) -> map_result f l = map_result g l.
Proof.
  intros H; induction l as [|a l IH]; simpl; [reflexivity|].
  now rewrite H, IH.
Qed.

Lemma map_result_returns {A B : Type} (g : A -> B) (l : list A) :
  map_result (fun a => Ok (g a)) l = Ok (map g l).
Proof. apply map_result_all_ok; reflexivity. Qed.

(** With the constructor that returns the record of its call, the
    formatters of this part are the formatters named as in the source. *)
Lemma format_descriptor_run_called (geom_type : string) (coords : json) :
  format_descriptor_run called geom_type coords = format_descriptor geom_type coords.
Proof. reflexivity. Qed.

Lemma format_multi_geometries_run_called (cell : option (list descriptor)) :
  format_multi_geometries_run called cell = format_multi_geometries cell.
Proof. reflexivity. Qed.

Lemma polygons_called (sub : gtype) (lss : list json) :
  map_result (polygons_of called sub) lss =
  (ptsl <- map_result iter lss ;; Ok (map (map (fun l => PGeom sub (PJson l))) ptsl)).
Proof.
  induction lss as [|ls lss IH]; simpl; [reflexivity|].
  unfold polygons_of at 1. destruct (iter ls) as [items|e]; simpl; [|reflexivity].
  unfold called at 1. rewrite map_result_returns. simpl. rewrite IH.
  destruct (map_result iter lss); reflexivity.
Qed.

Lemma format_multipolygon_run_called (f g : gtype) (x : option json) :
  format_multipolygon_run called f g x = format_multipolygon f g x.
Proof.
  destruct x as [coords|]; [|reflexivity].
  unfold format_multipolygon_run, format_multipolygon, flatten_once.
  destruct (iter coords) as [lss|e]; simpl; [|reflexivity].
  rewrite polygons_called.
  destruct (map_result iter lss) as [ptsl|e]; simpl; [|reflexivity].
  unfold called. now rewrite concat_map.
Qed.

Lemma format_single_geometry_run_called (set_list : list string -> list string)
  (geom_data : list (string * option json)) :
  format_single_geometry_run called set_list geom_data =
  format_single_geometry set_list geom_data.
Proof.
  unfold format_single_geometry_run, format_single_geometry.
  destruct (set_list (map fst geom_data)) as [|t ts]; simpl; [reflexivity|].
  destruct (getitem osm_geom_types t) as [f|e]; simpl; [|reflexivity].
  destruct (String.eqb t "MultiPolygon").
  - destruct (getitem osm_geom_types (lstrip "Multi" t)) as [g|e]; simpl; [|reflexivity].
    apply map_result_ext. intros x. apply format_multipolygon_run_called.
  - unfold called. apply map_result_returns.
Qed.

Lemma parse_layer_data_run_called (set_list : list string -> list string)
  (dat : list feature) (geo_typ : string) :
  parse_layer_data_run called set_list dat geo_typ = parse_layer_data set_list dat geo_typ.
Proof.
  unfold parse_layer_data_run, parse_layer_data.
  destruct dat as [|f0 dat0]; [reflexivity|].
  destruct (map_result parse_other_tags (map f_other_tags (f0 :: dat0))); cbn [bind];
    [|reflexivity].
  destruct (String.eqb geo_typ "other_relations").
  - destruct (column g_geometries (map f_geometry (f0 :: dat0))); [|reflexivity].
    reflexivity.
  - destruct (column g_coordinates (map f_geometry (f0 :: dat0))); [|reflexivity].
    now rewrite format_single_geometry_run_called.
Qed.

Lemma format_single_geometry_run_one_constructor
  (construct : gtype -> pyval -> result pyval)
  (set_list : list string -> list string)
  (geom_data : list (string * option json)) (t : string) (f : gtype) :
  hd_error (set_list (map fst geom_data)) = Some t ->
  dict_get osm_geom_types t = Some f ->
  t <> "MultiPolygon" ->
  format_single_geometry_run construct set_list geom_data =
  map_result (fun x => construct f (cell_value x)) (map snd geom_data).
Proof.
  intros Hhd Hf Ht. unfold format_single_geometry_run.
  rewrite (picked_type _ _ Hhd). cbn [bind].
  unfold getitem. rewrite Hf. cbn [bind].
  apply String.eqb_neq in Ht. now rewrite Ht.
Qed.

(** C1, as amended: a non-relation batch with two or more geometry types
    raises no error for that.  The type that comes first in the set of
    the observed types is the only one looked up, and when it names a
    constructor other than MultiPolygon that constructor is called on
    the cell of every row, in the order of the rows: the table built
    from its results is returned when the constructor returns for every
    cell, and its first exception leaves [parse_layer_data] otherwise. *)
Theorem parse_layer_data_picks_one_type
  (construct : gtype -> pyval -> result pyval)
  (set_list : list string -> list string)
  (dat : list feature) (geo_typ : string) (tags : list (option (dict string)))
  (t : string) (f : gtype) (f0 : feature) :
  geo_typ <> "other_relations" ->
  map_result parse_other_tags (map f_other_tags dat) = Ok tags ->
  In f0 dat -> is_some (g_coordinates (f_geometry f0)) = true ->
  hd_error (set_list (map (fun x => g_type (f_geometry x)) dat)) = Some t ->
  dict_get osm_geom_types t = Some f ->
  t <> "MultiPolygon" ->
  parse_layer_data_run construct set_list dat geo_typ =
  (gs <- map_result
           (fun x => construct f (cell_value (g_coordinates (f_geometry x)))) dat ;;
   Ok (make_rows dat tags gs)).
Proof.
  intros Hgeo Htags Hin Hsome Hhd Hf Ht. unfold parse_layer_data_run.
  destruct dat as [|f1 dat1] eqn:Edat; [destruct Hin|]. rewrite <- Edat in *.
  rewrite Htags. cbn [bind].
  apply String.eqb_neq in Hgeo. rewrite Hgeo.
  rewrite (column_some g_coordinates (map f_geometry dat) (f_geometry f0))
    by (auto using in_map).
  rewrite !map_map, combine_map.
  rewrite (format_single_geometry_run_one_constructor construct set_list _ t f);
    try assumption.
  - rewrite map_map, map_result_map. reflexivity.
  - rewrite map_map. exact Hhd.
Qed.

Lemma parse_layer_data_picks_one_type_witness :
  parse_layer_data_run rejects_scalars distinct mixed_batch "multilinestrings" =
  (gs <- map_result
           (fun x => rejects_scalars MultiLineString
                       (cell_value (g_coordinates (f_geometry x)))) mixed_batch ;;
   Ok (make_rows mixed_batch [None; None] gs)).
Proof.
  apply (parse_layer_data_picks_one_type rejects_scalars distinct mixed_batch
           "multilinestrings" [None; None] "MultiLineString" MultiLineString
           {| f_other_tags := None;
              f_geometry := simple_geometry "MultiLineString" (JArr [JArr ring_1]) |}).
  - discriminate.
  - reflexivity.
  - simpl; auto.
  - reflexivity.
  - reflexivity.
  - reflexivity.
  - discriminate.
Defined.

(** C1, counterexample: [mixed_batch] has the two geometry types
    MultiLineString and Polygon, and the payload of each of its rows is
    a list with one list of points, which is what the MultiLineString
    constructor is called on for a line.  With MultiLineString first in
    the set, [parse_layer_data] raises nothing: the one constructor is
    called on both rows and the table is returned, the Polygon row
    holding a MultiLineString. *)
Lemma parse_layer_data_mixed_batch :
  parse_layer_data distinct mixed_batch "multilinestrings" =
  Ok [ {| other_tags := None; geom_type := "MultiLineString";
          coordinates := PGeom MultiLineString (PJson (JArr [JArr ring_1]));
          geometries := None |};
       {| other_tags := None; geom_type := "Polygon";
          coordinates := PGeom MultiLineString (PJson (JArr [JArr ring_2]));
          geometries := None |} ].
Proof. vm_compute; reflexivity. Qed.

(** C7: a name outside the vocabulary is in no case turned into a
    geometry.  The lookup raises [KeyError]; [format_single_geometry]
    raises it when the name is the type picked for the layer;
    [format_multi_geometries] raises it at the first descriptor with
    that name, and returns nothing for a row that holds such a
    descriptor; [parse_layer_data] then returns no table. *)
Theorem unknown_geometry_type_raises (set_list : list string -> list string)
  (t : string) :
  ~ In t vocabulary ->
  getitem osm_geom_types t = Err (KeyError t) /\
  (forall geom_data,
     hd_error (set_list (map fst geom_data)) = Some t ->
     format_single_geometry set_list geom_data = Err (KeyError t)) /\
  (forall coords, format_descriptor t coords = Err (KeyError t)) /\
  (forall pre d post gs,
     d_type d = t ->
     map_result (fun d => format_descriptor (d_type d) (d_coordinates d)) pre = Ok gs ->
     format_multi_geometries (Some (pre ++ d :: post)%list) = Err (KeyError t)) /\
  (forall geoms,
     In t (map d_type geoms) ->
     is_ok (format_multi_geometries (Some geoms)) = false) /\
  (forall dat f geoms,
     In f dat -> g_geometries (f_geometry f) = Some geoms ->
     In t (map d_type geoms) ->
     is_ok (parse_layer_data set_list dat "other_relations") = false) /\
  (forall dat geo_typ,
     geo_typ <> "other_relations" ->
     hd_error (set_list (map (fun x => g_type (f_geometry x)) dat)) = Some t ->
     is_ok (parse_layer_data set_list dat geo_typ) = false).
Proof.
  intros Ht.
  assert (Hmulti : forall geoms, In t (map d_type geoms) ->
            is_ok (format_multi_geometries (Some geoms)) = false).
  { intros geoms Hin. rewrite format_multi_geometries_unfold.
    apply is_ok_bind_l, map_result_not_ok.
    apply in_map_iff in Hin. destruct Hin as [d [Hd Hin]].
    exists d; split; [assumption|].
    now rewrite Hd, format_descriptor_unknown. }
  split; [now apply getitem_unknown|].
  split; [intros; now apply format_single_geometry_unknown|].
  split; [intros; now apply format_descriptor_unknown|].
  split.
  { intros pre d post gs Hd Hpre. rewrite format_multi_geometries_unfold.
    erewrite map_result_stops; [reflexivity | eassumption |].
    now rewrite Hd, format_descriptor_unknown. }
  split; [exact Hmulti|].
  split.
  - intros dat f geoms Hin Hg Hgeoms. unfold parse_layer_data.
    destruct dat as [|f1 dat1] eqn:Edat; [destruct Hin|]. rewrite <- Edat in *.
    destruct (map_result parse_other_tags (map f_other_tags dat)); [|reflexivity].
    cbn [bind]. apply is_ok_bind_l.
    change (String.eqb "other_relations" "other_relations") with true. cbn iota.
    rewrite (column_some g_geometries (map f_geometry dat) (f_geometry f));
      [|now apply in_map|now rewrite Hg].
    apply map_result_not_ok. exists (Some geoms); split.
    + rewrite <- Hg, map_map. now apply (in_map (fun x => g_geometries (f_geometry x))).
    + now apply Hmulti.
  - intros dat geo_typ Hgeo Hhd. unfold parse_layer_data.
    destruct dat as [|f1 dat1] eqn:Edat; [reflexivity|]. rewrite <- Edat in *.
    destruct (map_result parse_other_tags (map f_other_tags dat)); [|reflexivity].
    cbn [bind]. apply is_ok_bind_l.
    apply String.eqb_neq in Hgeo. rewrite Hgeo.
    destruct (column g_coordinates (map f_geometry dat)) as [cells|] eqn:Ecol;
      [|reflexivity].
    rewrite (format_single_geometry_unknown set_list _ t); [reflexivity | assumption |].
    unfold column in Ecol.
    destruct (existsb _ (map f_geometry dat)); inv Ecol.
    rewrite combine_map, !map_map. cbn [fst]. rewrite <- Hhd.
    f_equal.
Qed.

Lemma unknown_geometry_type_raises_witness :
  getitem osm_geom_types "LinearRing" = Err (KeyError "LinearRing") /\
  format_single_geometry distinct [("LinearRing", Some (JArr ring_1))] =
  Err (KeyError "LinearRing") /\
  format_multi_geometries
    (Some ([ {| d_type := "Point"; d_coordinates := pt 5 5 |} ] ++
           {| d_type := "LinearRing"; d_coordinates := JArr ring_1 |} :: [])%list) =
  Err (KeyError "LinearRing").
Proof.
  assert (H : ~ In "LinearRing" vocabulary).
  { unfold vocabulary; simpl. intros H. repeat (destruct H as [H|H]; [discriminate H|]).
    exact H. }
  destruct (unknown_geometry_type_raises distinct "LinearRing" H)
    as [Hget [Hsingle [_ [Hmulti _]]]].
  split; [exact Hget|].
  split; [apply Hsingle; reflexivity|].
  apply (Hmulti _ _ _ [PGeom Point (PJson (pt 5 5))]); reflexivity.
Defined.

(** ** [parse_osm_pbf] and [read_osm_pbf] *)

Lemma read_layers_fails (w : world) (isfile : bool) :
  cannot_open_or_parse w isfile = true ->
  exists e, read_layers w isfile = Err e.
Proof.
  unfold cannot_open_or_parse, read_layers, ogr_Open.
  destruct isfile; cbn [negb orb].
  - destruct (w_layers w) as [osm|]; intros Hbad.
    + assert (H : is_ok (map_result read_features osm) = false).
      { apply map_result_not_ok. unfold unreadable in Hbad.
        apply existsb_exists in Hbad. destruct Hbad as [lyr [Hin Hlyr]].
        exists lyr; split; [assumption|].
        unfold read_features. apply map_result_not_ok.
        apply existsb_exists in Hlyr. destruct Hlyr as [fd [Hfd Hno]].
        exists fd; split; [assumption | now apply negb_true_iff]. }
      destruct (map_result read_features osm) as [ld|e]; [discriminate|].
      exists e; reflexivity.
    + exists AttributeError; reflexivity.
  - intros _. exists AttributeError; reflexivity.
Qed.

(** The converse: a mapping is returned only when the file was opened
    and every feature of every layer was read; it is built from all the
    layers. *)
Lemma read_layers_succeeds (w : world) (isfile : bool)
  (data : dict (list feature)) :
  read_layers w isfile = Ok data ->
  cannot_open_or_parse w isfile = false /\
  exists osm layer_data,
    w_layers w = Some osm /\
    map_result read_features osm = Ok layer_data /\
    List.length layer_data = List.length osm /\
    data = dict_of (combine (map l_name osm) layer_data).
Proof.
  intros H. split.
  - destruct (cannot_open_or_parse w isfile) eqn:E; [|reflexivity].
    destruct (read_layers_fails w isfile E) as [e He]. congruence.
  - unfold read_layers, ogr_Open in H.
    destruct isfile; [|discriminate].
    destruct (w_layers w) as [osm|]; [|discriminate].
    destruct (map_result read_features osm) as [ld|e] eqn:E; [|discriminate].
    inv H. exists osm, ld.
    split; [reflexivity|]. split; [assumption|]. split; [|reflexivity].
    eapply map_result_length; eassumption.
Qed.

(** C8, as amended: when the statements before the [try] block have
    returned and the file is missing, is not opened by the reader, or
    has a feature that cannot be read, [parse_osm_pbf] raises nothing:
    it returns the null dataset, never a mapping with some of the
    layers, and prints one line; the reason in that line is the text for
    a missing file exactly when the file is missing, and the caught
    exception otherwise. *)
Theorem parse_osm_pbf_all_or_nothing (w : world) (isfile : bool) :
  acquire w = Ok isfile ->
  cannot_open_or_parse w isfile = true ->
  exists msg,
    parse_osm_pbf w = Ok (None, [msg]) /\
    (isfile = false -> msg = NoSuchFile) /\
    (isfile = true -> exists e, read_layers w isfile = Err e /\ msg = Raised e).
Proof.
  intros Hacq Hbad. destruct (read_layers_fails w isfile Hbad) as [e He].
  unfold parse_osm_pbf. rewrite Hacq. cbn [bind]. rewrite He.
  destruct isfile.
  - exists (Raised e). split; [reflexivity|]. split; [discriminate | eauto].
  - exists NoSuchFile. split; [reflexivity|]. split; [reflexivity | discriminate].
Qed.

Lemma parse_osm_pbf_all_or_nothing_witness :
  (exists msg,
     parse_osm_pbf world_without_file = Ok (None, [msg]) /\
     (false = false -> msg = NoSuchFile) /\
     (false = true ->
      exists e, read_layers world_without_file false = Err e /\ msg = Raised e)) /\
  (exists msg,
     parse_osm_pbf world_with_bad_feature = Ok (None, [msg]) /\
     (true = false -> msg = NoSuchFile) /\
     (true = true ->
      exists e, read_layers world_with_bad_feature true = Err e /\ msg = Raised e)).
Proof.
  split.
  - apply (parse_osm_pbf_all_or_nothing world_without_file false); reflexivity.
  - apply (parse_osm_pbf_all_or_nothing world_with_bad_feature true); reflexivity.
Defined.

(** C8, counterexample: in [world_with_failed_download] the file is
    missing, so that it cannot be opened, and the download raises: the
    exception leaves [parse_osm_pbf], which returns no null dataset.  In
    [world_without_file] the function does not fail: it returns, and the
    missing file shows in the printed line only. *)
Lemma parse_osm_pbf_download_raises :
  cannot_open_or_parse world_with_failed_download false = true /\
  parse_osm_pbf world_with_failed_download = Err (OtherError "network") /\
  cannot_open_or_parse world_without_file false = true /\
  is_ok (parse_osm_pbf world_without_file) = true.
Proof. split; [reflexivity | split; [reflexivity | split; reflexivity]]. Qed.

Lemma read_osm_pbf_not_null (set_list : list string -> list string) (w : world) :
  read_osm_pbf set_list w <> Ok None.
Proof.
  unfold read_osm_pbf.
  destruct (parse_osm_pbf w) as [[[osm_data|] printed]|e]; simpl; try discriminate.
  destruct (map_result _ osm_data); simpl; discriminate.
Qed.

(** C9: when [parse_osm_pbf] returns the null dataset, [read_osm_pbf]
    raises [AttributeError] on reading the items of that value; it does
    not return null, in this case or in any other. *)
Theorem read_osm_pbf_raises_on_null (set_list : list string -> list string)
  (w : world) (printed : list err_msg) :
  parse_osm_pbf w = Ok (None, printed) ->
  read_osm_pbf set_list w = Err AttributeError /\
  forall w', read_osm_pbf set_list w' <> Ok None.
Proof.
  intros H. split; [|apply read_osm_pbf_not_null].
  unfold read_osm_pbf. rewrite H. reflexivity.
Qed.

Lemma read_osm_pbf_raises_on_null_witness :
  read_osm_pbf distinct world_with_bad_feature = Err AttributeError /\
  forall w', read_osm_pbf distinct w' <> Ok None.
Proof.
  apply (read_osm_pbf_raises_on_null distinct world_with_bad_feature
           [Raised (OtherError "json")]).
  reflexivity.
Defined.


(** * Further properties *)

(** ** More on [parse_other_tags] *)

Lemma map_result_all_is_ok {A B : Type} (f : A -> result B) (l : list A) :
  (forall a, In a l -> is_ok (f a) = true) -> exists bs, map_result f l = Ok bs.
Proof.
  induction l as [|a l IH]; intros H; [exists []; reflexivity|].
  destruct IH as [bs Hbs]; [intros; apply H; right; assumption|].
  specialize (H a (or_introl eq_refl)).
  destruct (f a) as [b|e] eqn:Ea; [|discriminate].
  exists (b :: bs). simpl. now rewrite Ea, Hbs.
Qed.

Lemma tag_pairs_well_formed (s : string) :
  malformed s = false -> exists kvs, tag_pairs s = Ok kvs.
Proof.
  unfold malformed, tag_pairs. intros H.
  apply map_result_all_is_ok. intros seg Hin.
  rewrite unpack_pair_is_ok.
  destruct (Nat.eqb (List.length (str_split tag_sep seg)) 2) eqn:E; [reflexivity|].
  assert (Hbad : existsb
            (fun each_tag => negb (Nat.eqb (List.length (str_split tag_sep each_tag)) 2))
            (raw_other_tags s) = true); [|congruence].
  apply existsb_exists. exists seg; split; [assumption | now rewrite E].
Qed.

(** X1: a non-null blob is decoded exactly when each of its segments
    splits on the separator into two parts; otherwise the call raises
    [ValueError], and it raises nothing else. *)
Theorem parse_other_tags_fails_iff_malformed (s : string) :
  if malformed s
  then parse_other_tags (Some s) = Err ValueError
  else exists d, parse_other_tags (Some s) = Ok (Some d).
Proof.
  destruct (malformed s) eqn:E.
  - now apply parse_other_tags_malformed.
  - destruct (tag_pairs_well_formed s E) as [kvs Hkvs].
    simpl. rewrite Hkvs. simpl. eauto.
Qed.

Lemma mem_string_In (k : string) (l : list string) :
  mem_string k l = true <-> In k l.
Proof.
  unfold mem_string. rewrite existsb_exists. split.
  - intros [x [Hin Hx]]. apply String.eqb_eq in Hx. now subst.
  - intros H. exists k; split; [assumption | apply String.eqb_refl].
Qed.

Lemma mem_string_app (k : string) (l1 l2 : list string) :
  mem_string k (l1 ++ l2)%list = mem_string k l1 || mem_string k l2.
Proof. unfold mem_string. apply existsb_app. Qed.

Lemma filter_twice {A : Type} (p q : A -> bool) (l : list A) :
  filter p (filter q l) = filter (fun x => q x && p x) l.
Proof.
  induction l as [|a l IH]; simpl; [reflexivity|].
  destruct (q a); simpl; [destruct (p a)|]; now rewrite IH.
Qed.

Section KeyOrder.
Context {V : Type}.

Lemma dict_keys_set_order (k : string) (v : V) (d : dict V) :
  dict_keys (dict_set k v d) =
  if mem_string k (dict_keys d) then dict_keys d else (dict_keys d ++ [k])%list.
Proof.
  unfold dict_keys, mem_string. induction d as [|[k' v'] d IH]; simpl; [reflexivity|].
  rewrite (String.eqb_sym k k').
  destruct (String.eqb k' k); simpl; [reflexivity|].
  rewrite IH. destruct (existsb (String.eqb k) (map fst d)); reflexivity.
Qed.

Lemma fold_enter_key_order (l : list (string * V)) (d : dict V) :
  dict_keys (fold_left enter l d) =
  (dict_keys d ++
   filter (fun x => negb (mem_string x (dict_keys d))) (distinct (map fst l)))%list.
Proof.
  revert d; induction l as [|[k v] l IH]; intros d.
  - simpl. now rewrite app_nil_r.
  - cbn [fold_left map fst distinct]. rewrite IH. unfold enter; cbn [fst snd].
    rewrite dict_keys_set_order. cbn [filter].
    destruct (mem_string k (dict_keys d)) eqn:Ek; cbn [negb].
    + f_equal. rewrite filter_twice. apply filter_ext. intros x. symmetry.
      destruct (mem_string x (dict_keys d)) eqn:Ex; cbn [negb].
      * now rewrite andb_false_r.
      * rewrite andb_true_r. apply negb_true_iff, String.eqb_neq.
        intros ->. congruence.
    + rewrite <- app_assoc. cbn [app]. do 2 f_equal.
      rewrite filter_twice. apply filter_ext. intros x.
      rewrite mem_string_app. unfold mem_string at 2. cbn [existsb].
      rewrite orb_false_r, negb_orb, andb_comm, (String.eqb_sym x k).
      reflexivity.
Qed.

Lemma filter_all {A : Type} (p : A -> bool) (l : list A) :
  (forall x, p x = true) -> filter p l = l.
Proof.
  intros H; induction l as [|a l IH]; simpl; [reflexivity|].
  now rewrite H, IH.
Qed.

Lemma dict_of_key_order (l : list (string * V)) :
  dict_keys (dict_of l) = distinct (map fst l).
Proof.
  unfold dict_of. rewrite fold_enter_key_order. simpl.
  apply filter_all. reflexivity.
Qed.
End KeyOrder.

(** X2: the keys of the decoded mapping are the keys of the pairs of
    the blob, each once, in the order in which they first occur. *)
Theorem parse_other_tags_key_order (s : string) (kvs : list (string * string)) :
  tag_pairs s = Ok kvs ->
  exists d,
    parse_other_tags (Some s) = Ok (Some d) /\
    dict_keys d = distinct (map fst kvs).
Proof.
  intros H. eexists; split; [simpl; rewrite H; reflexivity|].
  rewrite dict_of_key_order, map_map. reflexivity.
Qed.

Lemma parse_other_tags_key_order_witness :
  exists d,
    parse_other_tags
      (Some (encode_tags [("name", "A"); ("ref", "1"); ("name", "B"); ("lit", "yes")])) =
    Ok (Some d) /\
    dict_keys d =
    distinct (map fst [("name", "A"); ("ref", "1"); ("name", "B"); ("lit", "yes")]).
Proof.
  apply (parse_other_tags_key_order
           (encode_tags [("name", "A"); ("ref", "1"); ("name", "B"); ("lit", "yes")])
           [("name", "A"); ("ref", "1"); ("name", "B"); ("lit", "yes")]).
  vm_compute; reflexivity.
Defined.

(** X3: no value of a decoded mapping holds the line-break mark. *)
Theorem parse_other_tags_values_without_mark (s : string) (d : dict string)
  (k v : string) :
  parse_other_tags (Some s) = Ok (Some d) -> In (k, v) d ->
  str_contains "<br>" v = false.
Proof.
  simpl. destruct (tag_pairs s) as [kvs|e]; simpl; intros H Hin; [|discriminate].
  inv H. apply dict_of_In in Hin. apply in_map_iff in Hin.
  destruct Hin as [[k0 v0] [Heq _]]. simpl in Heq. inv Heq.
  apply replace_from_no_mark.
Qed.

Lemma parse_other_tags_values_without_mark_witness :
  parse_other_tags (Some (encode_tags [("note", "1<b<br>r><br>2")])) =
  Ok (Some [("note", "1<b r> 2")]) /\
  str_contains "<br>" "1<b r> 2" = false.
Proof.
  split; [vm_compute; reflexivity|].
  apply (parse_other_tags_values_without_mark
           (encode_tags [("note", "1<b<br>r><br>2")]) [("note", "1<b r> 2")]
           "note" "1<b r> 2").
  - vm_compute; reflexivity.
  - simpl; auto.
Defined.

Lemma concat_cons_tail (sep x : string) (l : list string) :
  exists tail, String.concat sep (x :: l) = x ++ tail.
Proof.
  destruct l as [|y l].
  - exists EmptyString. simpl. now rewrite append_nil_r.
  - exists (sep ++ String.concat sep (y :: l)). reflexivity.
Qed.

(** A value that is a lone comma is cut off from its pair: the scan
    ends the segment on the double quote that opens the value. *)
Lemma re_split_from_comma_value (k tail : string) (b : bool) :
  plain k = true ->
  re_split_from b (encode_pair (k, ",") ++ tail) =
  String dq (k ++ tag_sep) :: re_split_from false (String dq tail).
Proof.
  intros Hk. apply plain_spec in Hk. destruct Hk as [Hk Hk'].
  rewrite encode_pair_app.
  cbn [re_split_from].
  replace (Ascii.eqb dq ",") with false by reflexivity.
  rewrite andb_false_r; cbn [andb].
  replace (Ascii.eqb dq dq) with true by reflexivity.
  rewrite (re_split_from_run k _ true Hk) by auto.
  cbn [re_split_from append].
  replace (Ascii.eqb dq ",") with false by reflexivity.
  replace (Ascii.eqb "=" ",") with false by reflexivity.
  replace (Ascii.eqb ">" ",") with false by reflexivity.
  replace (Ascii.eqb "," ",") with true by reflexivity.
  rewrite !andb_false_r; cbn [andb].
  replace (Ascii.eqb dq dq) with true by reflexivity.
  cbn [starts_with_dq andb].
  replace (Ascii.eqb dq dq) with true by reflexivity.
  cbn [prepend prepend_string]. rewrite tag_sep_unfold. reflexivity.
Qed.

Lemma comma_value_segment (pre post : list (string * string)) (k : string) (b : bool) :
  forallb plain_pair pre = true -> plain k = true ->
  In (String dq (k ++ tag_sep))
     (re_split_from b (encode_tags (pre ++ (k, ",") :: post)%list)).
Proof.
  intros Hpre Hk. unfold encode_tags. revert b.
  induction pre as [|[k0 v0] pre IH]; intros b.
  - cbn [app map].
    destruct (concat_cons_tail "," (encode_pair (k, ",")) (map encode_pair post))
      as [tail ->].
    rewrite re_split_from_comma_value by assumption. left; reflexivity.
  - simpl in Hpre. apply andb_true_iff in Hpre. destruct Hpre as [Hkv Hpre].
    apply andb_true_iff in Hkv; destruct Hkv as [Hk0 Hv0]; simpl in Hk0, Hv0.
    specialize (IH Hpre false).
    cbn [app map].
    destruct (map encode_pair (pre ++ (k, ",") :: post)%list) as [|y l] eqn:E.
    { destruct pre; discriminate E. }
    change (String.concat "," (encode_pair (k0, v0) :: y :: l))
      with (encode_pair (k0, v0) ++ String "," (String.concat "," (y :: l))).
    rewrite re_split_from_pair by assumption.
    cbn [re_split_from andb].
    replace (Ascii.eqb "," ",") with true by reflexivity.
    assert (Hy : starts_with_dq (String.concat "," (y :: l)) = true).
    { assert (Hy0 : exists kv, y = encode_pair kv).
      { destruct pre as [|kv pre']; simpl in E; inv E; eauto. }
      destruct Hy0 as [kv ->]. destruct l; reflexivity. }
    rewrite Hy. cbn [andb prepend_string]. right. exact IH.
Qed.

Lemma comma_value_malformed (k : string) :
  dq_free k = true ->
  List.length (str_split tag_sep (re_sub_quotes (String dq (k ++ tag_sep)))) = 1.
Proof.
  intros Hk. cbn [re_sub_quotes].
  replace (Ascii.eqb dq dq) with true by reflexivity.
  rewrite strip_tail_run by assumption.
  unfold str_split. rewrite split_from_run by assumption.
  reflexivity.
Qed.

(** X4: a pair whose value is a lone comma makes the decoding of the
    whole blob raise, also after pairs that are well formed: the comma
    stands between two double quotes and is taken for a separator. *)
Theorem parse_other_tags_comma_value (pre post : list (string * string)) (k : string) :
  forallb plain_pair pre = true -> plain k = true ->
  parse_other_tags (Some (encode_tags (pre ++ (k, ",") :: post)%list)) = Err ValueError.
Proof.
  intros Hpre Hk. apply parse_other_tags_malformed.
  unfold malformed. apply existsb_exists.
  exists (re_sub_quotes (String dq (k ++ tag_sep))). split.
  - unfold raw_other_tags, re_split_tags. apply in_map.
    now apply comma_value_segment.
  - apply plain_spec in Hk. destruct Hk as [Hk _].
    now rewrite comma_value_malformed.
Qed.

Lemma parse_other_tags_comma_value_witness :
  parse_other_tags
    (Some (encode_tags ([("name", "A")] ++ ("separator", ",") :: [("ref", "1")])%list)) =
  Err ValueError.
Proof.
  apply (parse_other_tags_comma_value [("name", "A")] [("ref", "1")] "separator");
    vm_compute; reflexivity.
Defined.

(** ** More on the formatters *)

Lemma map_result_Forall2 {A B : Type} (f : A -> result B) (l : list A) (bs : list B) :
  map_result f l = Ok bs -> Forall2 (fun a b => f a = Ok b) l bs.
Proof.
  revert bs; induction l as [|a l IH]; simpl; intros bs H.
  - inv H. constructor.
  - destruct (f a) as [b|e] eqn:Ea; simpl in H; [|discriminate].
    destruct (map_result f l) as [bs'|e]; simpl in H; [|discriminate].
    inv H. constructor; auto.
Qed.

Lemma iter_raises (x : json) (e : exn) : iter x = Err e -> e = TypeError.
Proof. destruct x; simpl; intros H; now inv H. Qed.

Lemma flatten_once_raises (coords : json) (e : exn) :
  flatten_once coords = Err e -> e = TypeError.
Proof.
  unfold flatten_once. destruct coords as [x|items]; simpl.
  - intros H; now inv H.
  - destruct (map_result iter items) as [ptsl|e'] eqn:E; simpl; [discriminate|].
    intros H; inv H. eapply map_result_only_raises; [|exact E].
    apply iter_raises.
Qed.

Lemma flatten_once_nested (groups : list (list json)) :
  flatten_once (JArr (map JArr groups)) = Ok (concat groups).
Proof.
  unfold flatten_once. simpl. rewrite map_result_map.
  rewrite (map_result_all_ok _ (fun g => g)) by reflexivity.
  simpl. now rewrite map_id.
Qed.

Lemma flatten_once_two_levels (coords : json) :
  is_ok (flatten_once coords) = two_levels coords.
Proof.
  unfold flatten_once. destruct coords as [x|items]; simpl; [reflexivity|].
  induction items as [|i items IH]; simpl; [reflexivity|].
  destruct i as [x|l]; simpl; [reflexivity|].
  destruct (map_result iter items); simpl in *; exact IH.
Qed.



Lemma format_single_geometry_multipolygon_unfold
  (set_list : list string -> list string) (geom_data : list (string * option json)) :
  lists_the_set set_list -> geom_data <> [] ->
  (forall r, In r geom_data -> fst r = "MultiPolygon") ->
  format_single_geometry set_list geom_data =
  map_result (format_multipolygon MultiPolygon Polygon) (map snd geom_data).
Proof.
  intros Hset Hne Hall. unfold format_single_geometry.
  rewrite (picked_type _ "MultiPolygon"); [reflexivity|].
  apply picked_homogeneous; [assumption | |].
  - destruct geom_data; [congruence | discriminate].
  - intros x Hx. apply in_map_iff in Hx. destruct Hx as [r [<- Hr]]. auto.
Qed.

(** X5: in a MultiPolygon column every ring of every polygon of a
    payload becomes a polygon of its own: a row whose payload lists
    polygons, each a list of rings, is turned into one MultiPolygon of as
    many Polygon calls as there are rings in all its polygons together. *)
Theorem format_single_geometry_ring_per_polygon
  (set_list : list string -> list string) (payloads : list (list (list json))) :
  lists_the_set set_list -> payloads <> [] ->
  format_single_geometry set_list
    (map (fun polys => ("MultiPolygon", Some (JArr (map JArr polys)))) payloads) =
  Ok (map (fun polys =>
             PGeom MultiPolygon
               (PGen (map (fun ring => PGeom Polygon (PJson ring)) (concat polys))))
          payloads).
Proof.
  intros Hset Hne.
  rewrite format_single_geometry_multipolygon_unfold; try assumption.
  - rewrite map_map, map_result_map. cbn [snd]. apply map_result_all_ok.
    intros polys _. unfold format_multipolygon.
    now rewrite flatten_once_nested.
  - destruct payloads; [congruence | discriminate].
  - intros r Hr. apply in_map_iff in Hr. destruct Hr as [polys [<- _]]. reflexivity.
Qed.

Lemma format_single_geometry_ring_per_polygon_witness :
  format_single_geometry distinct
    (map (fun polys => ("MultiPolygon", Some (JArr (map JArr polys))))
         [[[JArr ring_1; JArr ring_2]]; [[JArr ring_1]; [JArr ring_2]]]) =
  Ok (map (fun polys =>
             PGeom MultiPolygon
               (PGen (map (fun ring => PGeom Polygon (PJson ring)) (concat polys))))
          [[[JArr ring_1; JArr ring_2]]; [[JArr ring_1]; [JArr ring_2]]]).
Proof.
  apply (format_single_geometry_ring_per_polygon distinct
           [[[JArr ring_1; JArr ring_2]]; [[JArr ring_1]; [JArr ring_2]]]).
  - exact distinct_lists_the_set.
  - discriminate.
Defined.

Lemma format_single_geometry_run_multipolygon
  (construct : gtype -> pyval -> result pyval)
  (set_list : list string -> list string) (geom_data : list (string * option json)) :
  lists_the_set set_list -> geom_data <> [] ->
  (forall r, In r geom_data -> fst r = "MultiPolygon") ->
  format_single_geometry_run construct set_list geom_data =
  map_result (format_multipolygon_run construct MultiPolygon Polygon) (map snd geom_data).
Proof.
  intros Hset Hne Hall. unfold format_single_geometry_run.
  rewrite (picked_type _ "MultiPolygon"); [reflexivity|].
  apply picked_homogeneous; [assumption | |].
  - destruct geom_data; [congruence | discriminate].
  - intros x Hx. apply in_map_iff in Hx. destruct Hx as [r [<- Hr]]. auto.
Qed.

Lemma format_multipolygon_run_not_iterable
  (construct : gtype -> pyval -> result pyval) (f g : gtype) (x : option json) :
  cell_not_iterable x = true -> format_multipolygon_run construct f g x = Err TypeError.
Proof. destruct x as [[n|items]|]; simpl; intros H; [reflexivity | discriminate | reflexivity]. Qed.

(** X6: in a MultiPolygon column a cell that is missing or holds a
    number makes the column raise [TypeError] at its row, once the rows
    before it are formatted: the cell is iterated before any
    constructor is called on it. *)
Theorem format_single_geometry_multipolygon_type_error
  (construct : gtype -> pyval -> result pyval)
  (set_list : list string -> list string)
  (pre post : list (string * option json)) (cell : option json) (gs : list pyval) :
  lists_the_set set_list ->
  (forall r, In r (pre ++ post)%list -> fst r = "MultiPolygon") ->
  map_result (format_multipolygon_run construct MultiPolygon Polygon) (map snd pre) =
  Ok gs ->
  cell_not_iterable cell = true ->
  format_single_geometry_run construct set_list
    (pre ++ ("MultiPolygon", cell) :: post)%list = Err TypeError.
Proof.
  intros Hset Hall Hpre Hcell.
  rewrite format_single_geometry_run_multipolygon; try assumption.
  - rewrite map_app. cbn [map snd].
    eapply map_result_stops; [eassumption|].
    now apply format_multipolygon_run_not_iterable.
  - destruct pre; discriminate.
  - intros r Hr. apply in_app_or in Hr. destruct Hr as [Hr|[<-|Hr]];
      [apply Hall, in_or_app; auto | reflexivity | apply Hall, in_or_app; auto].
Qed.

Lemma format_single_geometry_multipolygon_type_error_witness :
  format_single_geometry_run rejects_scalars distinct
    ([("MultiPolygon", Some (JArr [JArr [JArr ring_1]]))] ++
     ("MultiPolygon", None) :: [("MultiPolygon", Some (JArr [JArr [JArr ring_2]]))])%list =
  Err TypeError.
Proof.
  apply (format_single_geometry_multipolygon_type_error rejects_scalars distinct
           [("MultiPolygon", Some (JArr [JArr [JArr ring_1]]))]
           [("MultiPolygon", Some (JArr [JArr [JArr ring_2]]))] None
           [PGeom MultiPolygon (PGen [PGeom Polygon (PJson (JArr ring_1))])]).
  - exact distinct_lists_the_set.
  - simpl. intros r [<-|[<-|[]]]; reflexivity.
  - reflexivity.
  - reflexivity.
Defined.

Lemma format_descriptor_ok_shape (t : string) (coords : json) (g : pyval) :
  format_descriptor t coords = Ok g ->
  exists f arg, dict_get osm_geom_types t = Some f /\ g = PGeom f arg.
Proof.
  unfold format_descriptor, getitem.
  destruct (dict_get osm_geom_types t) as [f|];
    [|destruct (negb (str_contains "Polygon" t)); discriminate].
  destruct (negb (str_contains "Polygon" t)); simpl.
  - intros H; inv H. eauto.
  - destruct (flatten_once coords); simpl; intros H; inv H. eauto.
Qed.

(** X7: the collection built for a row holds one geometry per
    descriptor, in the order of the descriptors, and each of them was
    built by the constructor that the table gives for the type of its
    descriptor. *)
Theorem format_multi_geometries_one_per_descriptor (geoms : list descriptor)
  (v : pyval) :
  format_multi_geometries (Some geoms) = Ok v ->
  exists gs,
    v = PGeom GeometryCollection (PList gs) /\
    List.length (members v) = List.length geoms /\
    Forall2 (fun d g => exists f arg,
               dict_get osm_geom_types (d_type d) = Some f /\ g = PGeom f arg)
            geoms gs.
Proof.
  rewrite format_multi_geometries_unfold.
  destruct (map_result (fun d => format_descriptor (d_type d) (d_coordinates d)) geoms)
    as [gs|e] eqn:E; simpl; intros H; inv H.
  exists gs. split; [reflexivity|]. split.
  - simpl. eapply map_result_length; eassumption.
  - apply map_result_Forall2 in E.
    induction E as [|d g l l' Hd _ IH]; constructor; [|exact IH].
    eapply format_descriptor_ok_shape; eassumption.
Qed.

Lemma format_multi_geometries_one_per_descriptor_witness :
  exists gs,
    PGeom GeometryCollection
      (PList [PGeom Point (PJson (pt 5 5));
              PGeom Polygon (PGen (map PJson (ring_1 ++ ring_2)%list))]) =
    PGeom GeometryCollection (PList gs) /\
    List.length
      (members (PGeom GeometryCollection
         (PList [PGeom Point (PJson (pt 5 5));
                 PGeom Polygon (PGen (map PJson (ring_1 ++ ring_2)%list))]))) =
    List.length [ {| d_type := "Point"; d_coordinates := pt 5 5 |}; polygon_of_two ] /\
    Forall2 (fun d g => exists f arg,
               dict_get osm_geom_types (d_type d) = Some f /\ g = PGeom f arg)
            [ {| d_type := "Point"; d_coordinates := pt 5 5 |}; polygon_of_two ] gs.
Proof.
  apply (format_multi_geometries_one_per_descriptor
           [ {| d_type := "Point"; d_coordinates := pt 5 5 |}; polygon_of_two ]).
  reflexivity.
Defined.

(** X9: a descriptor of type Polygon or MultiPolygon is flattened by one
    level.  When its payload is an array of arrays the constructor
    receives the items of all these arrays in one sequence; when it is
    not, the row raises [TypeError].  [pre] are the descriptors before
    it in the row. *)
Theorem format_multi_geometries_polygon_types (pre post : list descriptor)
  (d : descriptor) (gs : list pyval) :
  In (d_type d) ["Polygon"; "MultiPolygon"] ->
  map_result (fun d => format_descriptor (d_type d) (d_coordinates d)) pre = Ok gs ->
  (forall groups, d_coordinates d = JArr (map JArr groups) ->
     exists f, dict_get osm_geom_types (d_type d) = Some f /\
               format_descriptor (d_type d) (d_coordinates d) =
               Ok (PGeom f (PGen (map PJson (concat groups))))) /\
  (two_levels (d_coordinates d) = false ->
     format_multi_geometries (Some (pre ++ d :: post)%list) = Err TypeError).
Proof.
  intros Ht Hpre.
  assert (Hfd : exists f, dict_get osm_geom_types (d_type d) = Some f /\
            format_descriptor (d_type d) (d_coordinates d) =
            (pts <- flatten_once (d_coordinates d) ;; Ok (PGeom f (PGen (map PJson pts))))).
  { simpl in Ht. destruct Ht as [<-|[<-|[]]]; eexists; split; reflexivity. }
  destruct Hfd as [f [Hf Hfd]]. split.
  - intros groups Hg. exists f; split; [assumption|].
    rewrite Hfd, Hg, flatten_once_nested. reflexivity.
  - intros Hbad. rewrite format_multi_geometries_unfold.
    erewrite map_result_stops; [reflexivity | eassumption |].
    rewrite Hfd. pose proof (flatten_once_two_levels (d_coordinates d)) as Hok.
    rewrite Hbad in Hok.
    destruct (flatten_once (d_coordinates d)) as [pts|e] eqn:E; [discriminate|].
    apply flatten_once_raises in E. now subst.
Qed.

Lemma format_multi_geometries_polygon_types_witness :
  format_multi_geometries
    (Some ([ {| d_type := "Point"; d_coordinates := pt 5 5 |} ] ++
           {| d_type := "MultiPolygon"; d_coordinates := JArr [JArr ring_1; JNum 7] |}
           :: [])%list) = Err TypeError.
Proof.
  apply (format_multi_geometries_polygon_types
           [ {| d_type := "Point"; d_coordinates := pt 5 5 |} ] []
           {| d_type := "MultiPolygon"; d_coordinates := JArr [JArr ring_1; JNum 7] |}
           [PGeom Point (PJson (pt 5 5))]).
  - simpl; auto.
  - reflexivity.
  - reflexivity.
Defined.

(** X17: a column of one geometry type of the vocabulary other than
    MultiPolygon is not flattened: each cell, a missing one included, is
    handed to the constructor of that type as it is, row after row.  The
    column is returned exactly when the constructor returns for every
    cell, and its first exception is the exception of the column. *)
Theorem format_single_geometry_cell_as_is
  (construct : gtype -> pyval -> result pyval)
  (set_list : list string -> list string)
  (geom_data : list (string * option json)) (t : string) (f : gtype) :
  lists_the_set set_list -> geom_data <> [] ->
  (forall r, In r geom_data -> fst r = t) ->
  dict_get osm_geom_types t = Some f -> t <> "MultiPolygon" ->
  format_single_geometry_run construct set_list geom_data =
  map_result (fun r => construct f (cell_value (snd r))) geom_data.
Proof.
  intros Hset Hne Hall Hf Ht.
  rewrite (format_single_geometry_run_one_constructor construct set_list geom_data t f);
    try assumption.
  - now rewrite map_result_map.
  - apply picked_homogeneous; [assumption | |].
    + destruct geom_data; [congruence | discriminate].
    + intros x Hx. apply in_map_iff in Hx. destruct Hx as [r [<- Hr]]. auto.
Qed.

Lemma format_single_geometry_cell_as_is_witness :
  format_single_geometry_run rejects_scalars distinct
    [("Polygon", Some (JArr [JArr ring_1; JArr ring_2])); ("Polygon", None)] =
  map_result (fun r => rejects_scalars Polygon (cell_value (snd r)))
    [("Polygon", Some (JArr [JArr ring_1; JArr ring_2])); ("Polygon", None)].
Proof.
  apply (format_single_geometry_cell_as_is rejects_scalars distinct
           [("Polygon", Some (JArr [JArr ring_1; JArr ring_2])); ("Polygon", None)]
           "Polygon" Polygon).
  - exact distinct_lists_the_set.
  - discriminate.
  - simpl. intros r [<-|[<-|[]]]; reflexivity.
  - reflexivity.
  - discriminate.
Defined.

(** ** More on [parse_layer_data] *)

Lemma format_single_geometry_length (set_list : list string -> list string)
  (geom_data : list (string * option json)) (out : list pyval) :
  format_single_geometry set_list geom_data = Ok out ->
  List.length out = List.length geom_data.
Proof.
  unfold format_single_geometry.
  destruct (set_list (map fst geom_data)) as [|t ts]; simpl; [discriminate|].
  destruct (getitem osm_geom_types t) as [f|e]; simpl; [|discriminate].
  destruct (String.eqb t "MultiPolygon").
  - destruct (getitem osm_geom_types (lstrip "Multi" t)) as [g|e]; simpl; [|discriminate].
    intros H. apply map_result_length in H. now rewrite length_map in H.
  - intros H; inv H. now rewrite !length_map.
Qed.

Lemma make_rows_columns (dat : list feature) (tags : list (option (dict string)))
  (cs : list pyval) :
  List.length tags = List.length dat -> List.length cs = List.length dat ->
  List.length (make_rows dat tags cs) = List.length dat /\
  map geom_type (make_rows dat tags cs) = map (fun f => g_type (f_geometry f)) dat /\
  map geometries (make_rows dat tags cs) =
  map (fun f => g_geometries (f_geometry f)) dat /\
  map other_tags (make_rows dat tags cs) = tags /\
  map coordinates (make_rows dat tags cs) = cs.
Proof.
  revert tags cs; induction dat as [|f dat IH]; intros [|t tags] [|c cs];
    simpl; intros H1 H2; try discriminate; [repeat split|].
  destruct (IH tags cs) as [IH1 [IH2 [IH3 [IH4 IH5]]]]; [lia | lia |].
  repeat split; f_equal; assumption.
Qed.

Lemma parse_layer_data_ok (set_list : list string -> list string)
  (dat : list feature) (geo_typ : string) (rows : list row) :
  parse_layer_data set_list dat geo_typ = Ok rows ->
  exists tags cs,
    map_result parse_other_tags (map f_other_tags dat) = Ok tags /\
    List.length tags = List.length dat /\
    List.length cs = List.length dat /\
    rows = make_rows dat tags cs.
Proof.
  unfold parse_layer_data. destruct dat as [|f0 dat0] eqn:Edat; [discriminate|].
  rewrite <- Edat.
  destruct (map_result parse_other_tags (map f_other_tags dat)) as [tags|e] eqn:Et;
    simpl; [|discriminate].
  match goal with
  | |- bind ?c _ = _ -> _ => destruct c as [cs|e] eqn:Ec
  end; simpl; intros H; inv H.
  exists tags, cs. split; [reflexivity|]. split.
  - apply map_result_length in Et. now rewrite length_map in Et.
  - split; [|reflexivity].
    destruct (String.eqb geo_typ "other_relations").
    + unfold column in Ec.
      destruct (existsb _ (map f_geometry (f0 :: dat0))); [|discriminate].
      apply map_result_length in Ec. now rewrite !length_map in Ec.
    + unfold column in Ec.
      destruct (existsb _ (map f_geometry (f0 :: dat0))); [|discriminate].
      apply format_single_geometry_length in Ec.
      rewrite combine_map, !length_map in Ec. exact Ec.
Qed.

(** X10: the table returned for a layer has one row per feature, in the
    order of the features; the row keeps the geometry type and the
    descriptor list of its feature, and its tag cell is the decoding of
    the feature's blob. *)
Theorem parse_layer_data_row_per_feature (set_list : list string -> list string)
  (dat : list feature) (geo_typ : string) (rows : list row) :
  parse_layer_data set_list dat geo_typ = Ok rows ->
  List.length rows = List.length dat /\
  map geom_type rows = map (fun f => g_type (f_geometry f)) dat /\
  map geometries rows = map (fun f => g_geometries (f_geometry f)) dat /\
  map_result parse_other_tags (map f_other_tags dat) = Ok (map other_tags rows).
Proof.
  intros H. destruct (parse_layer_data_ok _ _ _ _ H) as [tags [cs [Ht [Hl1 [Hl2 ->]]]]].
  destruct (make_rows_columns dat tags cs Hl1 Hl2) as [H1 [H2 [H3 [H4 _]]]].
  rewrite H4. auto.
Qed.

Lemma parse_layer_data_row_per_feature_witness :
  List.length
    [ {| other_tags := Some [("highway", "bus_stop")]; geom_type := "Point";
         coordinates := PGeom Point (PJson (pt 0 0)); geometries := None |};
      {| other_tags := Some [("highway", "bus_stop")]; geom_type := "Point";
         coordinates := PGeom Point (PJson (pt 2 2)); geometries := None |} ] =
  List.length [bus_stop 0 0; bus_stop 2 2] /\
  map geom_type
    [ {| other_tags := Some [("highway", "bus_stop")]; geom_type := "Point";
         coordinates := PGeom Point (PJson (pt 0 0)); geometries := None |};
      {| other_tags := Some [("highway", "bus_stop")]; geom_type := "Point";
         coordinates := PGeom Point (PJson (pt 2 2)); geometries := None |} ] =
  map (fun f => g_type (f_geometry f)) [bus_stop 0 0; bus_stop 2 2] /\
  map geometries
    [ {| other_tags := Some [("highway", "bus_stop")]; geom_type := "Point";
         coordinates := PGeom Point (PJson (pt 0 0)); geometries := None |};
      {| other_tags := Some [("highway", "bus_stop")]; geom_type := "Point";
         coordinates := PGeom Point (PJson (pt 2 2)); geometries := None |} ] =
  map (fun f => g_geometries (f_geometry f)) [bus_stop 0 0; bus_stop 2 2] /\
  map_result parse_other_tags (map f_other_tags [bus_stop 0 0; bus_stop 2 2]) =
  Ok (map other_tags
    [ {| other_tags := Some [("highway", "bus_stop")]; geom_type := "Point";
         coordinates := PGeom Point (PJson (pt 0 0)); geometries := None |};
      {| other_tags := Some [("highway", "bus_stop")]; geom_type := "Point";
         coordinates := PGeom Point (PJson (pt 2 2)); geometries := None |} ]).
Proof.
  apply (parse_layer_data_row_per_feature distinct [bus_stop 0 0; bus_stop 2 2] "points").
  vm_compute; reflexivity.
Defined.

Lemma column_none {A B : Type} (f : A -> option B) (records : list A) :
  (forall a, In a records -> is_some (f a) = false) -> column f records = None.
Proof.
  intros H. unfold column.
  replace (existsb (fun r => is_some (f r)) records) with false; [reflexivity|].
  symmetry. apply not_true_is_false. intros Hex.
  apply existsb_exists in Hex. destruct Hex as [a [Hin Ha]].
  rewrite (H a Hin) in Ha. discriminate.
Qed.

(** X11: a batch handed to the wrong kind of layer raises once its tags
    are decoded.  When no feature has a descriptor list, the layer
    [other_relations] raises [AttributeError] on reading the column
    [geometries]; when no feature has coordinates, any other layer
    raises [KeyError] on selecting the column [coordinates]. *)
Theorem parse_layer_data_missing_column (set_list : list string -> list string)
  (dat : list feature) (geo_typ : string) (tags : list (option (dict string))) :
  dat <> [] ->
  map_result parse_other_tags (map f_other_tags dat) = Ok tags ->
  (forall f, In f dat ->
     (if String.eqb geo_typ "other_relations"
      then is_some (g_geometries (f_geometry f))
      else is_some (g_coordinates (f_geometry f))) = false) ->
  parse_layer_data set_list dat geo_typ =
  Err (if String.eqb geo_typ "other_relations"
       then AttributeError else KeyError "coordinates").
Proof.
  intros Hne Htags Hall. unfold parse_layer_data.
  destruct dat as [|f0 dat0] eqn:Edat; [congruence|]. rewrite <- Edat in *.
  rewrite Htags. cbn [bind].
  destruct (String.eqb geo_typ "other_relations").
  - rewrite column_none; [reflexivity|].
    intros g Hg. apply in_map_iff in Hg. destruct Hg as [f [<- Hf]]. auto.
  - rewrite column_none; [reflexivity|].
    intros g Hg. apply in_map_iff in Hg. destruct Hg as [f [<- Hf]]. auto.
Qed.

Lemma parse_layer_data_missing_column_witness :
  parse_layer_data distinct [bus_stop 0 0; bus_stop 2 2] "other_relations" =
  Err AttributeError.
Proof.
  apply (parse_layer_data_missing_column distinct [bus_stop 0 0; bus_stop 2 2]
           "other_relations"
           [Some [("highway", "bus_stop")]; Some [("highway", "bus_stop")]]).
  - discriminate.
  - vm_compute; reflexivity.
  - simpl. intros f [<-|[<-|[]]]; reflexivity.
Defined.

(** ** More on [parse_osm_pbf] and [read_osm_pbf] *)

Lemma map_fst_combine_eq {A B : Type} (l1 : list A) (l2 : list B) :
  List.length l1 = List.length l2 -> map fst (combine l1 l2) = l1.
Proof.
  revert l2; induction l1 as [|a l1 IH]; intros [|b l2]; simpl; intros H;
    try discriminate; [reflexivity|].
  f_equal. apply IH. lia.
Qed.

Lemma read_features_all (lyr : layer) (frame : list feature) :
  l_features lyr = map Ok frame -> read_features lyr = Ok frame.
Proof.
  unfold read_features. intros ->. rewrite map_result_map.
  rewrite (map_result_all_ok _ (fun f => f)) by reflexivity.
  now rewrite map_id.
Qed.

Lemma read_features_every_layer (osm : list layer) (frames : list (list feature)) :
  map l_features osm = map (map Ok) frames ->
  map_result read_features osm = Ok frames /\ List.length osm = List.length frames.
Proof.
  revert frames; induction osm as [|lyr osm IH]; intros [|fr frames]; simpl;
    intros H; try discriminate; [split; reflexivity|].
  inv H. destruct (IH frames) as [IH1 IH2]; [assumption|].
  rewrite (read_features_all lyr fr) by assumption.
  simpl. rewrite IH1. simpl. split; [reflexivity | now rewrite IH2].
Qed.

(** X12: when the file is there, is opened, and every feature of every
    layer can be read, [parse_osm_pbf] prints nothing and returns a
    mapping whose keys are the layer names, each once, in the order of
    the layers; when no name is repeated, the mapping holds for each
    layer all its features in their order. *)
Theorem parse_osm_pbf_every_layer (w : world) (osm : list layer)
  (frames : list (list feature)) :
  acquire w = Ok true -> w_layers w = Some osm ->
  map l_features osm = map (map Ok) frames ->
  exists data,
    parse_osm_pbf w = Ok (Some data, []) /\
    dict_keys data = distinct (map l_name osm) /\
    (NoDup (map l_name osm) -> data = combine (map l_name osm) frames).
Proof.
  intros Hacq Hl Hf.
  destruct (read_features_every_layer osm frames Hf) as [Hr Hlen].
  exists (dict_of (combine (map l_name osm) frames)).
  assert (Hk : map fst (combine (map l_name osm) frames) = map l_name osm).
  { apply map_fst_combine_eq. now rewrite length_map. }
  split; [|split].
  - unfold parse_osm_pbf. rewrite Hacq. cbn [bind].
    unfold read_layers, ogr_Open. rewrite Hl, Hr. reflexivity.
  - now rewrite dict_of_key_order, Hk.
  - intros Hnd. apply dict_of_items. unfold dict_keys. now rewrite Hk.
Qed.

Lemma parse_osm_pbf_every_layer_witness :
  exists data,
    parse_osm_pbf world_with_two_layers = Ok (Some data, []) /\
    dict_keys data = distinct (map l_name
      [ {| l_name := "points";
           l_features := [Ok (bus_stop 0 0); Ok (bus_stop 1 1)] |};
        {| l_name := "multipolygons";
           l_features :=
             [Ok {| f_other_tags := None;
                    f_geometry :=
                      simple_geometry "MultiPolygon"
                        (JArr [JArr [JArr ring_1; JArr ring_2]]) |}] |} ]) /\
    (NoDup (map l_name
      [ {| l_name := "points";
           l_features := [Ok (bus_stop 0 0); Ok (bus_stop 1 1)] |};
        {| l_name := "multipolygons";
           l_features :=
             [Ok {| f_other_tags := None;
                    f_geometry :=
                      simple_geometry "MultiPolygon"
                        (JArr [JArr [JArr ring_1; JArr ring_2]]) |}] |} ]) ->
     data = combine (map l_name
      [ {| l_name := "points";
           l_features := [Ok (bus_stop 0 0); Ok (bus_stop 1 1)] |};
        {| l_name := "multipolygons";
           l_features :=
             [Ok {| f_other_tags := None;
                    f_geometry :=
                      simple_geometry "MultiPolygon"
                        (JArr [JArr [JArr ring_1; JArr ring_2]]) |}] |} ])
      [ [bus_stop 0 0; bus_stop 1 1];
        [ {| f_other_tags := None;
             f_geometry :=
               simple_geometry "MultiPolygon"
                 (JArr [JArr [JArr ring_1; JArr ring_2]]) |} ] ]).
Proof.
  apply (parse_osm_pbf_every_layer world_with_two_layers); reflexivity.
Defined.

(** X13: when the file is missing and stays missing (the download is
    declined, or it returns without the file), [parse_osm_pbf] returns
    the null dataset with the missing-file reason; an exception raised
    by the download is outside the [try] block and leaves
    [parse_osm_pbf]. *)
Theorem parse_osm_pbf_missing_file (w : world) :
  w_isfile w = false ->
  w_confirmed w = false \/ w_download w <> Ok true ->
  parse_osm_pbf w =
  if w_confirmed w
  then match w_download w with
       | Err e => Err e
       | Ok _ => Ok (None, [NoSuchFile])
       end
  else Ok (None, [NoSuchFile]).
Proof.
  intros Hf Hmiss. unfold parse_osm_pbf, acquire. rewrite Hf. cbn [negb].
  destruct (w_confirmed w); [|reflexivity].
  destruct Hmiss as [Hc|Hd]; [discriminate|].
  destruct (w_download w) as [[|]|e]; [congruence | reflexivity | reflexivity].
Qed.

Lemma parse_osm_pbf_missing_file_witness :
  parse_osm_pbf world_with_failed_download = Err (OtherError "network") /\
  parse_osm_pbf world_without_file = Ok (None, [NoSuchFile]).
Proof.
  split.
  - apply (parse_osm_pbf_missing_file world_with_failed_download);
      [reflexivity | right; discriminate].
  - apply (parse_osm_pbf_missing_file world_without_file);
      [reflexivity | left; reflexivity].
Defined.

Lemma parse_osm_pbf_some (w : world) (data : dict (list feature))
  (printed : list err_msg) :
  parse_osm_pbf w = Ok (Some data, printed) ->
  NoDup (dict_keys data) /\ printed = [].
Proof.
  unfold parse_osm_pbf. destruct (acquire w) as [isfile|e]; simpl; [|discriminate].
  destruct (read_layers w isfile) as [d|e] eqn:E; intros H; inv H.
  split; [|reflexivity].
  apply read_layers_succeeds in E. destruct E as [_ [osm [ld [_ [_ [_ ->]]]]]].
  apply dict_of_NoDup.
Qed.

Lemma combine_Forall2 {A B C : Type} (P : A * B -> A * C -> Prop)
  (l : list (A * B)) (cs : list C) :
  Forall2 (fun item c => P item (fst item, c)) l cs ->
  Forall2 P l (combine (map fst l) cs).
Proof.
  induction 1 as [|item c l cs H _ IH]; simpl; constructor; assumption.
Qed.

(** X14: the dataset returned by [read_osm_pbf] has the layers of the
    parsed file under the same names and in the same order, and the
    table of each layer is what [parse_layer_data] gives for the frame
    of that layer and its name. *)
Theorem read_osm_pbf_tables (set_list : list string -> list string) (w : world)
  (osm_pbf_data : dict (list row)) :
  read_osm_pbf set_list w = Ok (Some osm_pbf_data) ->
  exists osm_data,
    parse_osm_pbf w = Ok (Some osm_data, []) /\
    Forall2 (fun item entry =>
               fst entry = fst item /\
               parse_layer_data set_list (snd item) (fst item) = Ok (snd entry))
            osm_data osm_pbf_data.
Proof.
  unfold read_osm_pbf.
  destruct (parse_osm_pbf w) as [[[osm_data|] printed]|e] eqn:Ep; simpl;
    try discriminate.
  destruct (parse_osm_pbf_some _ _ _ Ep) as [Hnd ->].
  destruct (map_result (fun item => parse_layer_data set_list (snd item) (fst item))
              osm_data) as [layer_data|e] eqn:El; simpl; intros H; inv H.
  exists osm_data. split; [reflexivity|].
  assert (Hlen : List.length layer_data = List.length osm_data)
    by (eapply map_result_length; eassumption).
  rewrite dict_of_items.
  - apply (combine_Forall2
             (fun item entry =>
                fst entry = fst item /\
                parse_layer_data set_list (snd item) (fst item) = Ok (snd entry))).
    apply map_result_Forall2 in El.
    clear - El.
    induction El as [|item table l l' Hitem _ IH]; constructor; [|exact IH].
    split; [reflexivity | exact Hitem].
  - unfold dict_keys at 1. rewrite map_fst_combine_eq; [exact Hnd|].
    unfold dict_keys. now rewrite length_map.
Qed.

Lemma read_osm_pbf_tables_witness :
  exists osm_data,
    parse_osm_pbf world_with_two_layers = Ok (Some osm_data, []) /\
    Forall2 (fun item entry =>
               fst entry = fst item /\
               parse_layer_data distinct (snd item) (fst item) = Ok (snd entry))
            osm_data
            [ ("points",
               [ {| other_tags := Some [("highway", "bus_stop")]; geom_type := "Point";
                    coordinates := PGeom Point (PJson (pt 0 0)); geometries := None |};
                 {| other_tags := Some [("highway", "bus_stop")]; geom_type := "Point";
                    coordinates := PGeom Point (PJson (pt 1 1)); geometries := None |} ]);
              ("multipolygons",
               [ {| other_tags := None; geom_type := "MultiPolygon";
                    coordinates :=
                      PGeom MultiPolygon
                        (PGen [PGeom Polygon (PJson (JArr ring_1));
                               PGeom Polygon (PJson (JArr ring_2))]);
                    geometries := None |} ]) ].
Proof.
  apply (read_osm_pbf_tables distinct world_with_two_layers).
  vm_compute; reflexivity.
Defined.

(** X15: [read_osm_pbf] returns no dataset when [parse_layer_data]
    raises for one of the layers, whatever the other layers hold; a
    layer without features is such a layer. *)
Theorem read_osm_pbf_layer_failure (set_list : list string -> list string)
  (w : world) (osm_data : dict (list feature)) (printed : list err_msg)
  (name : string) (dat : list feature) :
  parse_osm_pbf w = Ok (Some osm_data, printed) ->
  In (name, dat) osm_data ->
  is_ok (parse_layer_data set_list dat name) = false ->
  is_ok (read_osm_pbf set_list w) = false /\
  is_ok (parse_layer_data set_list [] name) = false.
Proof.
  intros Hp Hin Hbad. split; [|reflexivity].
  unfold read_osm_pbf. rewrite Hp. cbn [bind fst].
  apply is_ok_bind_l, map_result_not_ok.
  exists (name, dat). split; assumption.
Qed.

Lemma read_osm_pbf_layer_failure_witness :
  is_ok (read_osm_pbf distinct world_with_empty_layer) = false /\
  is_ok (parse_layer_data distinct [] "lines") = false.
Proof.
  apply (read_osm_pbf_layer_failure distinct world_with_empty_layer
           [("points", [bus_stop 0 0; bus_stop 1 1]); ("lines", [])] []
           "lines" []).
  - vm_compute; reflexivity.
  - simpl; auto.
  - reflexivity.
Defined.

(** ** [make_osm_pickle_file_path] *)

Lemma append_cancel_l (a x y : string) : a ++ x = a ++ y -> x = y.
Proof.
  induction a as [|c a IH]; simpl; intros H; [assumption|].
  inversion H. auto.
Qed.

Lemma length_append (a b : string) :
  String.length (a ++ b) = String.length a + String.length b.
Proof. induction a as [|c a IH]; simpl; [reflexivity | now rewrite IH]. Qed.

Lemma dash_free_cons (c : ascii) (s : string) :
  dash_free (String c s) = true -> c <> "-"%char /\ dash_free s = true.
Proof.
  simpl. intros H. apply andb_true_iff in H. destruct H as [Hc Hs].
  split; [|assumption]. apply negb_true_iff in Hc.
  intros ->. discriminate Hc.
Qed.

(** The text before the first dash is determined by the whole. *)
Lemma first_dash_unique (u u' r r' : string) :
  dash_free u = true -> dash_free u' = true ->
  u ++ String "-" r = u' ++ String "-" r' -> u = u' /\ r = r'.
Proof.
  revert u'; induction u as [|c u IH]; intros [|c' u'] Hu Hu' H; simpl in H.
  - inversion H. auto.
  - apply dash_free_cons in Hu'. destruct Hu' as [Hc _]. inversion H. congruence.
  - apply dash_free_cons in Hu. destruct Hu as [Hc _]. inversion H. congruence.
  - apply dash_free_cons in Hu, Hu'. destruct Hu as [_ Hu], Hu' as [_ Hu'].
    inversion H. subst c'.
    match goal with
    | Heq : u ++ _ = u' ++ _ |- _ => destruct (IH u' Hu Hu' Heq) as [-> ->]
    end.
    auto.
Qed.

Lemma pickle_filename_unfold (sub lyr : string) (feat : option string) (suffix : string) :
  String.concat "-" (not_none [Some sub; Some lyr; feat; Some suffix]) ++ ".pickle" =
  sub ++ String "-"
    (lyr ++ String "-"
       (match feat with
        | Some f => f ++ String "-" (suffix ++ ".pickle")
        | None => suffix ++ ".pickle"
        end)).
Proof.
  destruct feat as [f|]; simpl; rewrite !append_assoc; simpl;
    rewrite ?append_assoc; simpl; rewrite ?append_assoc; reflexivity.
Qed.

Lemma after_last_slash_no_slash (p : string) :
  str_contains "/" (after_last_slash p) = false.
Proof.
  induction p as [|c p IH]; [reflexivity|].
  cbn [after_last_slash].
  destruct (str_contains "/" p) eqn:Ep; [exact IH|].
  destruct (Ascii.eqb c "/") eqn:Ec; [exact Ep|].
  cbn [str_contains startswith]. rewrite Ep, Ascii.eqb_sym, Ec. reflexivity.
Qed.

(** The file name starts with the text before the first dash of the base
    name, so it does not start with a slash when the base name has
    none. *)
Lemma filename_not_absolute (b r : string) :
  str_contains "/" b = false ->
  startswith "/" (hd EmptyString (str_split "-" b) ++ String "-" r) = false.
Proof.
  destruct b as [|c b]; [reflexivity|].
  intros Hb. cbn [str_contains] in Hb. apply orb_false_iff in Hb.
  destruct Hb as [Hc _]. cbn [startswith] in Hc. rewrite andb_true_r in Hc.
  unfold str_split. cbn [split_from].
  destruct (startswith "-" (String c b)); [reflexivity|].
  pose proof (split_from_not_nil "-" 0 b) as Hne.
  destruct (split_from "-" 0 b) as [|seg rest]; [congruence|].
  cbn [prepend hd append startswith]. rewrite Hc. reflexivity.
Qed.

Lemma posix_join_relative (d a b : string) :
  startswith "/" a = false -> startswith "/" b = false ->
  posix_join d a = posix_join d b -> a = b.
Proof.
  unfold posix_join. intros -> ->.
  destruct (is_empty d || ends_with_char "/" d); intros H.
  - now apply append_cancel_l in H.
  - apply append_cancel_l in H. now inversion H.
Qed.

(** X16: with the path functions of a POSIX platform and for one
    extraction directory, two requests that differ in the layer or in
    the feature are given different pickle paths, as long as the layer
    and feature names hold no dash. *)
Theorem make_osm_pickle_file_path_distinct
  (extr_dir lyr1 lyr2 : string) (feat1 feat2 : option string) (suffix : string) :
  dash_free lyr1 = true -> dash_free lyr2 = true ->
  option_dash_free feat1 = true -> option_dash_free feat2 = true ->
  (lyr1, feat1) <> (lyr2, feat2) ->
  make_osm_pickle_file_path posix_basename posix_join extr_dir lyr1 feat1 suffix <>
  make_osm_pickle_file_path posix_basename posix_join extr_dir lyr2 feat2 suffix.
Proof.
  intros Hl1 Hl2 Hf1 Hf2 Hne Heq. apply Hne. clear Hne.
  unfold make_osm_pickle_file_path in Heq.
  rewrite !pickle_filename_unfold in Heq.
  apply posix_join_relative in Heq;
    try (apply filename_not_absolute, after_last_slash_no_slash).
  apply append_cancel_l in Heq. inversion Heq as [Heq']. clear Heq.
  apply first_dash_unique in Heq'; try assumption.
  destruct Heq' as [-> Hrest]. f_equal.
  destruct feat1 as [f1|], feat2 as [f2|]; simpl in Hf1, Hf2.
  - apply first_dash_unique in Hrest; try assumption.
    destruct Hrest as [-> _]. reflexivity.
  - exfalso. apply (f_equal String.length) in Hrest.
    rewrite !length_append in Hrest. cbn [String.length] in Hrest.
    rewrite ?length_append in Hrest. cbn [String.length] in Hrest. lia.
  - exfalso. apply (f_equal String.length) in Hrest.
    rewrite !length_append in Hrest. cbn [String.length] in Hrest.
    rewrite ?length_append in Hrest. cbn [String.length] in Hrest. lia.
  - reflexivity.
Qed.

Lemma make_osm_pickle_file_path_distinct_witness :
  make_osm_pickle_file_path posix_basename posix_join
    "/home/osm/dat/england-latest-free.shp" "railways" None "shp" <>
  make_osm_pickle_file_path posix_basename posix_join
    "/home/osm/dat/england-latest-free.shp" "railways" (Some "rail") "shp".
Proof.
  apply (make_osm_pickle_file_path_distinct
           "/home/osm/dat/england-latest-free.shp" "railways" "railways"
           None (Some "rail") "shp").
  - reflexivity.
  - reflexivity.
  - reflexivity.
  - reflexivity.
  - discriminate.
Defined.
